(** * Jobly: the dynamic SQL construction layer

    A shallow embedding of [models/job.js] (Job.create, Job.findAll,
    Job.update) and of the partial-update builder [sqlForPartialUpdate]
    of [helpers/sql.js], with the properties of the generated statement
    text and positional parameter lists.

    Conventions of the embedding:
    - a JavaScript primitive is a [value]; numbers are the integer-valued
      ones (salaries, counts), kept as [Z];
    - a JavaScript object with primitive fields is an ordered list of
      (key, value) entries ([JsObject]); reading a key that is not there
      gives [VUndefined];
    - [db.query] is the only effect: a program is a tree of queries
      ([Prog]) whose continuation receives the rows; [run] interprets it
      against any store, threading the store and logging the calls. *)

From Stdlib Require Import ZArith Ascii String DecimalString DecimalNat DecimalZ.
From stdpp Require Import gmap strings list fin_maps.

Local Open Scope string_scope.
Local Open Scope list_scope.

(** ** Characters and strings *)

(** The double quote, the line feed and the characters the scanner of
    placeholders looks at. *)
Definition dquote : ascii := "034"%char.
Definition newline : ascii := "010"%char.
Definition dollar : ascii := "$"%char.

Definition str (c : ascii) : string := String c EmptyString.

(** [n] spaces: the indentation inside the multi-line template literals. *)
Fixpoint spaces (n : nat) : string :=
  match n with
  | O => EmptyString
  | S k => String " " (spaces k)
  end.

(** A line break of a template literal followed by [n] spaces. *)
Definition nl (n : nat) : string := String newline (spaces n).

(** [Array.prototype.join] on an array of strings. *)
Fixpoint join (sep : string) (xs : list string) : string :=
  match xs with
  | [] => EmptyString
  | x :: rest =>
      match rest with
      | [] => x
      | _ :: _ => x +:+ sep +:+ join sep rest
      end
  end.

(** Decimal text of an array index or length ([String(n)] on a
    non-negative integer). *)
Definition showNat (n : nat) : string :=
  NilEmpty.string_of_uint (Nat.to_uint n).

(** ** JavaScript values *)

Inductive value : Type :=
| VUndefined
| VNull
| VBool (b : bool)
| VNum (n : Z)
| VStr (s : string).

#[global] Instance value_eq_dec : EqDecision value.
Proof. solve_decision. Defined.

(** ToBoolean, as used by [if (x)]. *)
Definition truthy (v : value) : bool :=
  match v with
  | VUndefined | VNull => false
  | VBool b => b
  | VNum n => negb (n =? 0)%Z
  | VStr s => negb (String.eqb s EmptyString)
  end.

(** ToString, as used by [${x}] in a template literal. A number is
    printed in plain decimal, which is what JavaScript prints below
    10^21 in absolute value; the exponent form it uses from there on is
    not modelled. *)
Definition toString (v : value) : string :=
  match v with
  | VUndefined => "undefined"
  | VNull => "null"
  | VBool true => "true"
  | VBool false => "false"
  | VNum n => NilZero.string_of_int (Z.to_int n)
  | VStr s => s
  end.

(** An object with primitive fields: its entries in property order. *)
Definition JsObject : Type := list (string * value).

(** Property read [o.key] (or the destructuring [{key} = o]). *)
Fixpoint get (key : string) (o : JsObject) : value :=
  match o with
  | [] => VUndefined
  | (k, v) :: rest => if String.eqb k key then v else get key rest
  end.

(** [Object.keys] and [Object.values]. *)
Definition keys (o : JsObject) : list string := map fst o.
Definition objValues (o : JsObject) : list value := map snd o.

(** ** Errors and the query effect *)

Inductive Error : Type :=
| BadRequestError (message : string)
| NotFoundError (message : string)
| StorageError (message : string).

Inductive result (A : Type) : Type :=
| Ok (a : A)
| Err (e : Error).
Arguments Ok {A} a.
Arguments Err {A} e.

(** What [db.query] resolves to: the rows, each row an object. *)
Record QueryResult : Type := mkQueryResult { rows : list JsObject }.

(** A call [db.query(sql, params)]. *)
Definition Call : Type := (string * list value)%type.

(** An async function of the model: it returns, throws, or awaits a
    query and goes on with its result. *)
Inductive Prog (A : Type) : Type :=
| Ret (a : A)
| Throw (e : Error)
| Query (sql : string) (params : list value) (k : QueryResult -> Prog A).
Arguments Ret {A} a.
Arguments Throw {A} e.
Arguments Query {A} sql params k.

Section Run.
(** Any store: a state and what a query does to it (an answer or a
    storage error, and the next state). *)
Variable DB : Type.
Variable exec : string -> list value -> DB -> result QueryResult * DB.

(** The outcome of a program, the final store and the log of the calls
    made, in order. *)
Fixpoint run {A : Type} (p : Prog A) (s : DB) : result A * DB * list Call :=
  match p with
  | Ret a => (Ok a, s, [])
  | Throw e => (Err e, s, [])
  | Query sql params k =>
      match exec sql params s with
      | (Ok r, s') =>
          let '(out, s'', log) := run (k r) s' in
          (out, s'', (sql, params) :: log)
      | (Err e, s') => (Err e, s', [(sql, params)])
      end
  end.
End Run.
Arguments run {DB} exec {A} p s.

(** ** helpers/sql.js: the partial-update builder *)

(** The pair the builder returns: the SET clause text and its
    positional parameters. *)
Record Fragment : Type := mkFragment { setCols : string; values : list value }.

(** Modelled from the spec: the column lookup of [sqlForPartialUpdate]
    (helpers/sql.js is not among the sources): the storage column of a
    field is [columnMap[name]] if present, else the name itself. *)
Definition resolveColumn (jsToSql : gmap string string) (name : string) : string :=
  match jsToSql !! name with
  | Some col => col
  | None => name
  end.

(** Modelled from the spec: the piece emitted for the field at 1-based
    position [i]: the column between double quotes, [=$] and [i]. *)
Definition setPiece (jsToSql : gmap string string) (i : nat) (name : string) : string :=
  str dquote +:+ resolveColumn jsToSql name +:+ str dquote +:+ "=$" +:+ showNat i.

(** Modelled from the spec: the iteration of [sqlForPartialUpdate] over
    the fields in their given order, from position [i]: one piece per
    field, the value accumulated at the same position. *)
Fixpoint buildSet (jsToSql : gmap string string) (i : nat) (fields : JsObject)
  : list string * list value :=
  match fields with
  | [] => ([], [])
  | (name, v) :: rest =>
      let '(pieces, vals) := buildSet jsToSql (S i) rest in
      (setPiece jsToSql i name :: pieces, v :: vals)
  end.

(** Modelled from the spec: [sqlForPartialUpdate(dataToUpdate, jsToSql)]
    of helpers/sql.js, which is not among the sources (its test file
    is): an empty field set is a BadRequestError; otherwise the pieces
    are joined with a comma and a space. *)
Definition sqlForPartialUpdate (dataToUpdate : JsObject) (jsToSql : gmap string string)
  : result Fragment :=
  match dataToUpdate with
  | [] => Err (BadRequestError "No data")
  | _ :: _ =>
      let '(pieces, vals) := buildSet jsToSql 1 dataToUpdate in
      Ok (mkFragment (join ", " pieces) vals)
  end.

(** ** models/job.js *)

Module Job.

(** The duplicate check of [create]. *)
Definition duplicateCheckSql : string :=
  "SELECT title, company_handle" +:+ nl 7 +:+
  "FROM jobs" +:+ nl 7 +:+
  "WHERE title = $1 AND company_handle = $2".

(** The insert of [create]. *)
Definition insertSql : string :=
  "INSERT INTO jobs" +:+ nl 7 +:+
  "(title, salary, equity, company_handle)" +:+ nl 7 +:+
  "VALUES ($1, $2, $3, $4)" +:+ nl 7 +:+
  "RETURNING title, salary, equity, company_handle AS " +:+
  str dquote +:+ "companyHandle" +:+ str dquote.

(** The message of the error [create] throws on a duplicate. *)
Definition duplicateMessage (title companyHandle : value) : string :=
  "Duplicate job: " +:+ toString title +:+ " at " +:+ toString companyHandle.

(** [Job.create({ title, salary, equity, companyHandle })]; the result
    [rows[0]] of the insert is [None] when it is undefined. *)
Definition create (data : JsObject) : Prog (option JsObject) :=
  let title := get "title" data in
  let salary := get "salary" data in
  let equity := get "equity" data in
  let companyHandle := get "companyHandle" data in
  Query duplicateCheckSql [title; companyHandle] (fun duplicateCheck =>
    match head (rows duplicateCheck) with
    | Some _ => Throw (BadRequestError (duplicateMessage title companyHandle))
    | None =>
        Query insertSql [title; salary; equity; companyHandle] (fun result =>
          let job := head (rows result) in
          Ret job)
    end).

(** The statement [findAll] starts from. *)
Definition selectSql : string :=
  "SELECT title, salary, equity, company_handle AS " +:+
  str dquote +:+ "companyHandle" +:+ str dquote +:+ nl 21 +:+
  "FROM jobs".

(** The conditions of [findAll] (its lines between the two array
    declarations and the WHERE composition): the pair
    [(queryValues, whereClauses)] after the three checks, each [push]
    written as an append at the end. *)
Definition filterClauses (title minSalary hasEquity : value)
  : list value * list string :=
  let queryValues : list value := [] in
  let whereClauses : list string := [] in
  let '(queryValues, whereClauses) :=
    if truthy title then
      let queryValues := queryValues ++ [VStr ("%" +:+ toString title +:+ "%")] in
      (queryValues, whereClauses ++ ["title ILIKE $" +:+ showNat (length queryValues)])
    else (queryValues, whereClauses) in
  let '(queryValues, whereClauses) :=
    if decide (minSalary = VUndefined) then (queryValues, whereClauses)
    else
      let queryValues := queryValues ++ [minSalary] in
      (queryValues, whereClauses ++ ["salary >= $" +:+ showNat (length queryValues)]) in
  let whereClauses :=
    if decide (hasEquity = VBool true) then whereClauses ++ ["equity > 0"]
    else whereClauses in
  (queryValues, whereClauses).

(** The fragment the conditions stand for: the clauses joined by AND,
    with the parameters. It is the text [findAllQuery] puts after WHERE
    and the parameters it sends (lemma [findAllQuery_fragment]). *)
Definition filterFragment (title minSalary hasEquity : value) : string * list value :=
  let '(queryValues, whereClauses) := filterClauses title minSalary hasEquity in
  (join " AND " whereClauses, queryValues).

(** The statement and parameters [findAll] hands to [db.query]. The
    argument is [None] when the caller passes nothing (the default
    [{}] of the signature applies). *)
Definition findAllQuery (filters : option JsObject) : Call :=
  let o := default [] filters in
  let title := get "title" o in
  let minSalary := get "minSalary" o in
  let hasEquity := get "hasEquity" o in
  let query := selectSql in
  let '(queryValues, whereClauses) := filterClauses title minSalary hasEquity in
  let query :=
    if (0 <? length whereClauses)%nat
    then query +:+ " WHERE " +:+ join " AND " whereClauses
    else query in
  let query := query +:+ " ORDER BY title" in
  (query, queryValues).

(** [Job.findAll({ title, minSalary, hasEquity } = {})]. *)
Definition findAll (filters : option JsObject) : Prog (list JsObject) :=
  let '(query, queryValues) := findAllQuery filters in
  Query query queryValues (fun result => Ret (rows result)).

(** The statement of [update] around the SET clause and the index of
    the title. *)
Definition updateSql (setCols titleVarIdx : string) : string :=
  "UPDATE jobs " +:+ nl 22 +:+
  "SET " +:+ setCols +:+ " " +:+ nl 22 +:+
  "WHERE title = " +:+ titleVarIdx +:+ " " +:+ nl 22 +:+
  "RETURNING title, " +:+ nl 32 +:+
  "salary, " +:+ nl 32 +:+
  "equity, " +:+ nl 32 +:+
  "company_handle AS " +:+ str dquote +:+ "companyHandle" +:+ str dquote.

(** The column mapping [update] passes to the builder. *)
Definition jsToSql : gmap string string := {[ "companyHandle" := "company_handle" ]}.

(** [Job.update(title, data)]. *)
Definition update (title : value) (data : JsObject) : Prog JsObject :=
  match sqlForPartialUpdate data jsToSql with
  | Err e => Throw e
  | Ok frag =>
      let titleVarIdx := "$" +:+ showNat (length (values frag) + 1) in
      let querySql := updateSql (setCols frag) titleVarIdx in
      Query querySql (values frag ++ [title]) (fun result =>
        match head (rows result) with
        | None => Throw (NotFoundError ("No job: " +:+ toString title))
        | Some job => Ret job
        end)
  end.

(** The statement of [get]. *)
Definition getSql : string :=
  "SELECT title," +:+ nl 14 +:+
  "salary," +:+ nl 14 +:+
  "equity," +:+ nl 14 +:+
  "company_handle AS " +:+ str dquote +:+ "companyHandle" +:+ str dquote +:+ nl 7 +:+
  "FROM jobs" +:+ nl 7 +:+
  "WHERE title = $1".

(** [Job.get(title)]. *)
Definition get (title : value) : Prog JsObject :=
  Query getSql [title] (fun jobRes =>
    let job := head (rows jobRes) in
    match job with
    | None => Throw (NotFoundError ("No job: " +:+ toString title))
    | Some job => Ret job
    end).

(** The statement of [remove]. *)
Definition deleteSql : string :=
  "DELETE" +:+ nl 7 +:+
  "FROM jobs" +:+ nl 7 +:+
  "WHERE title = $1" +:+ nl 7 +:+
  "RETURNING title".

(** [Job.remove(title)]; it returns undefined. *)
Definition remove (title : value) : Prog unit :=
  Query deleteSql [title] (fun result =>
    let job := head (rows result) in
    match job with
    | None => Throw (NotFoundError ("No job: " +:+ toString title))
    | Some _ => Ret tt
    end).

End Job.

(** ** Reading a statement back: the placeholders of a template text *)

(** A decimal digit. *)
Definition isDigit (c : ascii) : bool :=
  match uint_of_char c (Some Decimal.Nil) with
  | Some _ => true
  | None => false
  end.

(** The longest run of digits at the start of a text. *)
Fixpoint digitsPrefix (s : string) : string :=
  match s with
  | EmptyString => EmptyString
  | String c r => if isDigit c then String c (digitsPrefix r) else EmptyString
  end.

Definition startsWithDigit (s : string) : bool :=
  match s with
  | EmptyString => false
  | String c _ => isDigit c
  end.

(** The number a non-empty run of digits denotes. *)
Definition readNat (ds : string) : option nat :=
  match ds with
  | EmptyString => None
  | String _ _ => option_map Nat.of_uint (NilEmpty.uint_of_string ds)
  end.

(** The placeholders of a statement text, left to right, as the store
    reads them: a dollar sign followed by digits, outside a
    double-quoted identifier. [inQuote] tells whether the text starts
    inside such an identifier. *)
Fixpoint placeholdersFrom (inQuote : bool) (s : string) : list nat :=
  match s with
  | EmptyString => []
  | String c r =>
      if inQuote then placeholdersFrom (negb (Ascii.eqb c dquote)) r
      else if Ascii.eqb c dquote then placeholdersFrom true r
      else if Ascii.eqb c dollar then
        match readNat (digitsPrefix r) with
        | Some n => n :: placeholdersFrom false r
        | None => placeholdersFrom false r
        end
      else placeholdersFrom false r
  end.

Definition placeholders (s : string) : list nat := placeholdersFrom false s.

(** A text with a double quote in it. *)
Fixpoint hasQuote (s : string) : bool :=
  match s with
  | EmptyString => false
  | String c r => Ascii.eqb c dquote || hasQuote r
  end.

(** A text with neither a double quote nor a dollar sign. *)
Fixpoint plainText (s : string) : bool :=
  match s with
  | EmptyString => true
  | String c r => negb (Ascii.eqb c dquote) && negb (Ascii.eqb c dollar) && plainText r
  end.

(** Every column a field set resolves to is free of double quotes. *)
Definition columnsQuoteFree (jsToSql : gmap string string) (fields : JsObject) : bool :=
  forallb (fun kv => negb (hasQuote (resolveColumn jsToSql kv.1))) fields.


(** ** Filter records *)

(** A key is present in a filter record when reading it gives a value. *)
Definition present (v : value) : bool := negb (bool_decide (v = VUndefined)).

(** The record without a key. *)
Fixpoint remove (key : string) (o : JsObject) : JsObject :=
  match o with
  | [] => []
  | (k, v) :: rest =>
      if String.eqb k key then remove key rest else (k, v) :: remove key rest
  end.

(** ** A store in memory

    The jobs table as a list of rows and the two statements of
    [Job.create] on it; every other statement is refused. It plays the
    part of the test database of models/job.test.js. *)

Definition matchesJob (title companyHandle : value) (row : JsObject) : bool :=
  bool_decide (get "title" row = title)
  && bool_decide (get "company_handle" row = companyHandle).

Definition memExec (sql : string) (params : list value) (jobs : list JsObject)
  : result QueryResult * list JsObject :=
  if String.eqb sql Job.duplicateCheckSql then
    match params with
    | [title; companyHandle] =>
        let found := List.filter (matchesJob title companyHandle) jobs in
        (Ok (mkQueryResult
               (map (fun row => [("title", get "title" row);
                                 ("company_handle", get "company_handle" row)]) found)),
         jobs)
    | _ => (Err (StorageError "bind message supplies the wrong number of parameters"), jobs)
    end
  else if String.eqb sql Job.insertSql then
    match params with
    | [title; salary; equity; companyHandle] =>
        (Ok (mkQueryResult
               [[("title", title); ("salary", salary); ("equity", equity);
                 ("companyHandle", companyHandle)]]),
         jobs ++ [[("title", title); ("salary", salary); ("equity", equity);
                   ("company_handle", companyHandle)]])
    | _ => (Err (StorageError "bind message supplies the wrong number of parameters"), jobs)
    end
  else (Err (StorageError "statement not supported"), jobs).

(** The job of the create tests. *)
Definition newJob : JsObject :=
  [("title", VStr "new"); ("salary", VNum 1); ("equity", VStr "0.0");
   ("companyHandle", VStr "c1")].

(** ** Statements and their parameters *)

(** The placeholders of the text of a call are 1, 2, ... up to the
    number of its parameters. *)
Definition wellNumbered (c : Call) : Prop :=
  placeholders c.1 = seq 1 (length c.2).

(** ** Awaiting one async function inside another *)

(** [const x = await p; ...f(x)]: an error thrown by [p] ends the whole. *)
Fixpoint andThen {A B : Type} (p : Prog A) (f : A -> Prog B) : Prog B :=
  match p with
  | Ret a => f a
  | Throw e => Throw e
  | Query sql params k => Query sql params (fun r => andThen (k r) f)
  end.

(** ** Numbers of a query string *)

(** What the unary plus gives on a value of a query string: a number
    (the integer-valued ones, as everywhere here) or NaN. A fractional
    or infinite result (as for [1.5]) has no value here: the handlers
    are covered on the queries whose numbers convert to NaN or to an
    integer. *)
Inductive number : Type :=
| NaN
| Num (z : Z).

Definition isNaN (n : number) : bool :=
  match n with
  | NaN => true
  | Num _ => false
  end.

(** [a > b] on two numbers; a comparison with NaN is false. *)
Definition gtNumber (a b : number) : bool :=
  match a, b with
  | Num x, Num y => (y <? x)%Z
  | _, _ => false
  end.

(** [x === undefined] and [x === y] on primitive values. *)
Definition isUndefined (v : value) : bool := bool_decide (v = VUndefined).
Definition strictEq (a b : value) : bool := bool_decide (a = b).

(** [xs.includes(x)] on an array of strings. *)
Definition includes (xs : list string) (x : string) : bool :=
  existsb (String.eqb x) xs.

(** A conversion for the examples: a number is itself, a string of
    decimal digits is the number it writes, and everything else is
    answered with NaN. On numbers and on strings of digits it is the
    unary plus. *)
Definition digitsToNumber (v : value) : number :=
  match v with
  | VNum z => Num z
  | VStr s =>
      match readNat s with
      | Some n => Num (Z.of_nat n)
      | None => NaN
      end
  | _ => NaN
  end.

(** ** routes/jobs.js *)

Module JobsRouter.

Definition allowedFilters : list string := ["title"; "minSalary"; "hasEquity"].

(** The keys of the query that are not allowed, in the order of the
    query. *)
Definition invalidFilters (filters : JsObject) : list string :=
  List.filter (fun key => negb (includes allowedFilters key)) (keys filters).

Definition invalidFiltersMessage (invalid : list string) : string :=
  "Invalid filters: " +:+ join ", " invalid +:+
  ". Allowed filters are: " +:+ join ", " allowedFilters.

(** The record [sanitizedFilters] of the handler of [GET /]: the three
    assignments in their order. A minimum salary that converts to NaN
    does not get here (the handler has thrown), and adds nothing. *)
Definition sanitize (toNumber : value -> number) (title minSalary hasEquity : value)
  : JsObject :=
  let sanitizedFilters : JsObject := [] in
  let sanitizedFilters :=
    if truthy title then sanitizedFilters ++ [("title", title)] else sanitizedFilters in
  let sanitizedFilters :=
    if isUndefined minSalary then sanitizedFilters
    else
      match toNumber minSalary with
      | Num z => sanitizedFilters ++ [("minSalary", VNum z)]
      | NaN => sanitizedFilters
      end in
  let sanitizedFilters :=
    if strictEq hasEquity (VStr "true")
    then sanitizedFilters ++ [("hasEquity", VBool true)]
    else sanitizedFilters in
  sanitizedFilters.

(** The handler of [router.get("/")]. [filters] is [req.query], which
    the framework always gives as a plain object (the handler's first
    check, on its type, never fires on it); [toNumber] is the unary
    plus. [Throw e] is [next(err)], [Ret jobs] is [res.json({ jobs })]. *)
Definition getJobs (toNumber : value -> number) (filters : JsObject)
  : Prog (list JsObject) :=
  let invalid := invalidFilters filters in
  if (0 <? length invalid)%nat then
    Throw (BadRequestError (invalidFiltersMessage invalid))
  else
    let title := get "title" filters in
    let minSalary := get "minSalary" filters in
    let hasEquity := get "hasEquity" filters in
    if negb (isUndefined minSalary) && isNaN (toNumber minSalary) then
      Throw (BadRequestError "minSalary must be a valid number")
    else if negb (isUndefined hasEquity)
            && negb (strictEq hasEquity (VStr "true") || strictEq hasEquity (VStr "false"))
    then
      Throw (BadRequestError "hasEquity must be 'true' or 'false'")
    else
      let sanitizedFilters := sanitize toNumber title minSalary hasEquity in
      andThen (Job.findAll (Some sanitizedFilters)) (fun jobs => Ret jobs).

End JobsRouter.

(** ** routes/companies.js *)

Module CompaniesRouter.

Definition allowedFilters : list string := ["nameLike"; "minEmployees"; "maxEmployees"].

Definition invalidFilters (filters : JsObject) : list string :=
  List.filter (fun key => negb (includes allowedFilters key)) (keys filters).

Definition invalidFiltersMessage (invalid : list string) : string :=
  "Invalid filters: " +:+ join ", " invalid +:+
  ". Allowed filters are: " +:+ join ", " allowedFilters.

(** The object the handler passes to [Company.findAll]: a bound is
    [None] when it is undefined, and a number (NaN included) otherwise. *)
Record FindAllFilters : Type := mkFindAllFilters {
  name : value;
  minEmployees : option number;
  maxEmployees : option number
}.

(** The handler of [router.get("/")]. [filters] is [req.query], a plain
    object as for the jobs (the first check never fires on it);
    [toNumber] is the unary plus; [findAll] is [Company.findAll], of
    models/company.js, which is not among the sources. [Throw e] is
    [next(err)], [Ret companies] is [res.json({ companies })]. *)
Definition getCompanies (toNumber : value -> number)
    (findAll : FindAllFilters -> Prog (list JsObject)) (filters : JsObject)
  : Prog (list JsObject) :=
  let invalid := invalidFilters filters in
  if (0 <? length invalid)%nat then
    Throw (BadRequestError (invalidFiltersMessage invalid))
  else
    let minEmployees := get "minEmployees" filters in
    let maxEmployees := get "maxEmployees" filters in
    if negb (isUndefined minEmployees) && negb (isUndefined maxEmployees)
       && gtNumber (toNumber minEmployees) (toNumber maxEmployees)
    then
      Throw (BadRequestError "minEmployees cannot be greater than maxEmployees")
    else
      andThen
        (findAll
           (mkFindAllFilters
              (get "nameLike" filters)
              (if isUndefined minEmployees then None else Some (toNumber minEmployees))
              (if isUndefined maxEmployees then None else Some (toNumber maxEmployees))))
        (fun companies => Ret companies).

End CompaniesRouter.

(** * Properties *)

(** ** Strings and lists *)

#[local] Arguments String.append !s1 s2 : simpl nomatch.

Lemma sapp_assoc (a b c : string) : (a +:+ b) +:+ c = a +:+ (b +:+ c).
Proof. induction a as [|x a IH]; simpl; [reflexivity | now rewrite IH]. Qed.

Lemma sapp_nil_r (a : string) : a +:+ EmptyString = a.
Proof. induction a as [|x a IH]; simpl; [reflexivity | now rewrite IH]. Qed.

Lemma join_cons (sep x y : string) (rest : list string) :
  join sep (x :: y :: rest) = x +:+ sep +:+ join sep (y :: rest).
Proof. reflexivity. Qed.

(** ** Decimal indices are read back as written *)

Lemma showNat_read (n : nat) :
  option_map Nat.of_uint (NilEmpty.uint_of_string (showNat n)) = Some n.
Proof.
  unfold showNat. rewrite NilEmpty.usu. simpl. now rewrite Unsigned.of_to.
Qed.

Lemma showNat_nonempty (n : nat) : showNat n <> EmptyString.
Proof.
  intros E. pose proof (showNat_read n) as R. rewrite E in R. simpl in R.
  injection R as <-. discriminate E.
Qed.

Lemma readNat_showNat (n : nat) : readNat (showNat n) = Some n.
Proof.
  unfold readNat. pose proof (showNat_nonempty n) as NE.
  destruct (showNat n) eqn:E; [congruence|]. rewrite <- E. apply showNat_read.
Qed.

Lemma digitsPrefix_uint (d : Decimal.uint) (rest : string) :
  startsWithDigit rest = false ->
  digitsPrefix (NilEmpty.string_of_uint d +:+ rest) = NilEmpty.string_of_uint d.
Proof.
  intros R. induction d; simpl; try (now rewrite IHd).
  destruct rest as [|c r]; simpl in *; [reflexivity | now rewrite R].
Qed.

Lemma scan_uint (d : Decimal.uint) (rest : string) :
  placeholdersFrom false (NilEmpty.string_of_uint d +:+ rest) = placeholdersFrom false rest.
Proof. induction d; simpl; auto. Qed.

(** A dollar sign and an index, outside quotes, is one placeholder. *)
Lemma scan_index (n : nat) (rest : string) :
  startsWithDigit rest = false ->
  placeholders (String dollar (showNat n +:+ rest)) = n :: placeholders rest.
Proof.
  intros R. unfold placeholders. cbn [placeholdersFrom].
  change (Ascii.eqb dollar dquote) with false. rewrite Ascii.eqb_refl.
  unfold showNat at 1. rewrite (digitsPrefix_uint _ _ R).
  fold (showNat n). rewrite readNat_showNat. unfold showNat. now rewrite scan_uint.
Qed.

(** A quoted identifier with no quote inside holds no placeholder. *)
Lemma scan_inside_quotes (col rest : string) :
  hasQuote col = false ->
  placeholdersFrom true (col +:+ String dquote rest) = placeholdersFrom false rest.
Proof.
  induction col as [|c col IH]; simpl; intros H.
  - reflexivity.
  - apply orb_false_iff in H as [Hc Hr]. rewrite Hc. simpl. auto.
Qed.

Lemma scan_setPiece (M : gmap string string) (i : nat) (name rest : string) :
  hasQuote (resolveColumn M name) = false ->
  startsWithDigit rest = false ->
  placeholders (setPiece M i name +:+ rest) = i :: placeholders rest.
Proof.
  intros Q R. unfold setPiece, str. rewrite !sapp_assoc. simpl.
  unfold placeholders at 1. cbn [placeholdersFrom].
  rewrite Ascii.eqb_refl. rewrite ?sapp_assoc. simpl.
  rewrite (scan_inside_quotes _ _ Q).
  cbn [placeholdersFrom]. change (Ascii.eqb "=" dquote) with false.
  change (Ascii.eqb "=" dollar) with false. cbv iota.
  apply (scan_index i rest R).
Qed.

(** ** The iteration of the partial-update builder *)

Lemma buildSet_cons (M : gmap string string) (i : nat) (name : string) (v : value)
    (rest : JsObject) :
  buildSet M i ((name, v) :: rest) =
  (setPiece M i name :: (buildSet M (S i) rest).1, v :: (buildSet M (S i) rest).2).
Proof. simpl. now destruct (buildSet M (S i) rest). Qed.

Lemma buildSet_values (M : gmap string string) (F : JsObject) :
  forall i, (buildSet M i F).2 = objValues F.
Proof.
  induction F as [|[name v] F IH]; intros i; [reflexivity|].
  rewrite buildSet_cons. simpl. now rewrite IH.
Qed.

Lemma buildSet_length (M : gmap string string) (F : JsObject) :
  forall i, length (buildSet M i F).1 = length F.
Proof.
  induction F as [|[name v] F IH]; intros i; [reflexivity|].
  rewrite buildSet_cons. simpl. now rewrite IH.
Qed.

Lemma buildSet_lookup (M : gmap string string) (F : JsObject) :
  forall i j name v,
    F !! j = Some (name, v) ->
    (buildSet M i F).1 !! j = Some (setPiece M (i + j) name).
Proof.
  induction F as [|[name0 v0] F IH]; intros i j name v H; [discriminate H|].
  rewrite buildSet_cons. destruct j as [|j]; simpl in *.
  - injection H as -> ->. now rewrite Nat.add_0_r.
  - rewrite (IH (S i) j name v H). do 2 f_equal. lia.
Qed.

Lemma sqlForPartialUpdate_cons (f : string * value) (F : JsObject)
    (M : gmap string string) :
  sqlForPartialUpdate (f :: F) M =
  Ok (mkFragment (join ", " (buildSet M 1 (f :: F)).1) (objValues (f :: F))).
Proof.
  unfold sqlForPartialUpdate.
  rewrite <- (buildSet_values M (f :: F) 1).
  now destruct (buildSet M 1 (f :: F)).
Qed.

(** The placeholders of the joined pieces are the positions, in order,
    when no column has a double quote in it. *)
Lemma scan_pieces (M : gmap string string) (F : JsObject) :
  forall i rest,
    columnsQuoteFree M F = true ->
    startsWithDigit rest = false ->
    placeholders (join ", " (buildSet M i F).1 +:+ rest) =
    seq i (length F) ++ placeholders rest.
Proof.
  induction F as [|[name v] F IH]; intros i rest Q R; [reflexivity|].
  simpl in Q. apply andb_true_iff in Q as [Qn QF]. apply negb_true_iff in Qn.
  rewrite buildSet_cons. cbn [fst length seq].
  destruct F as [|f F'].
  - change ((buildSet M (S i) []).1) with (@nil string). cbn [join].
    now rewrite (scan_setPiece M i name rest Qn R).
  - specialize (IH (S i) rest QF R).
    destruct f as [name' v']. rewrite buildSet_cons in IH |- *. cbn [fst] in IH |- *.
    rewrite join_cons, !sapp_assoc.
    rewrite (scan_setPiece M i name (", " +:+ _) Qn eq_refl).
    cbn [app]. f_equal. exact IH.
Qed.

(** ** The partial-update builder *)

(** The pieces and the parameters of the builder. For every non-empty
    field set [F] and column mapping [M], [sqlForPartialUpdate F M]
    returns a fragment made of one piece per field: the piece at 1-based
    position [i], in the order of [F], is the resolved column between
    double quotes followed by [=$i], the pieces are joined with a comma
    and a space, and the parameter at that position is the field's
    value. For [{firstName: 'Aliya', age: 32}] with the mapping
    [{firstName: 'first_name'}] the fragment is
    ["first_name"=$1, "age"=$2] with parameters ['Aliya', 32]. *)
Theorem sqlForPartialUpdate_pieces_and_values :
  (forall (F : JsObject) (M : gmap string string),
      F <> [] ->
      exists pieces : list string,
        sqlForPartialUpdate F M = Ok (mkFragment (join ", " pieces) (objValues F))
        /\ length pieces = length F
        /\ length (objValues F) = length F
        /\ forall (i : nat) (name : string) (v : value),
            F !! i = Some (name, v) ->
            pieces !! i =
              Some (str dquote +:+ resolveColumn M name +:+ str dquote +:+
                    "=$" +:+ showNat (S i))
            /\ objValues F !! i = Some v)
  /\ sqlForPartialUpdate
       [("firstName", VStr "Aliya"); ("age", VNum 32)]
       {[ "firstName" := "first_name" ]}
     = Ok (mkFragment
             (str dquote +:+ "first_name" +:+ str dquote +:+ "=$1, " +:+
              str dquote +:+ "age" +:+ str dquote +:+ "=$2")
             [VStr "Aliya"; VNum 32]).
Proof.
  split; [|reflexivity].
  intros F M NE. destruct F as [|f F]; [congruence|].
  exists (buildSet M 1 (f :: F)).1. repeat split.
  - apply sqlForPartialUpdate_cons.
  - apply buildSet_length.
  - unfold objValues. apply length_map.
  - rewrite (buildSet_lookup M (f :: F) 1 i name v H). reflexivity.
  - unfold objValues. rewrite list_lookup_fmap.
    exact (f_equal (fmap snd) H).
Qed.

Lemma sqlForPartialUpdate_pieces_and_values_witness :
  [("salary", VNum 10); ("equity", VStr "0.5")] <> []
  /\ exists pieces : list string,
    sqlForPartialUpdate [("salary", VNum 10); ("equity", VStr "0.5")] Job.jsToSql
    = Ok (mkFragment (join ", " pieces)
            (objValues [("salary", VNum 10); ("equity", VStr "0.5")]))
    /\ length pieces = 2.
Proof.
  split; [discriminate|].
  destruct (proj1 sqlForPartialUpdate_pieces_and_values
              [("salary", VNum 10); ("equity", VStr "0.5")] Job.jsToSql
              ltac:(discriminate)) as (pieces & E & L & _).
  exists pieces. split; [exact E | exact L].
Defined.

(** C2. Whatever the column mapping, [sqlForPartialUpdate] on the empty
    field set fails with a BadRequestError, and [Job.update] with no
    data throws it before any query is sent. On a non-empty field set
    the builder always returns a fragment, and its parameters are the
    field values as they are, in order. *)
Theorem sqlForPartialUpdate_failure_mode :
  (forall M : gmap string string,
      exists message, sqlForPartialUpdate [] M = Err (BadRequestError message))
  /\ (forall (f : string * value) (F : JsObject) (M : gmap string string),
        exists text : string,
          sqlForPartialUpdate (f :: F) M = Ok (mkFragment text (f.2 :: map snd F)))
  /\ (forall (DB : Type) (exec : string -> list value -> DB -> result QueryResult * DB)
             (s : DB) (title : value),
        exists message,
          run exec (Job.update title []) s = (Err (BadRequestError message), s, [])).
Proof.
  split; [|split].
  - intros M. now exists "No data".
  - intros f F M. eexists. apply sqlForPartialUpdate_cons.
  - intros DB exec s title. now exists "No data".
Qed.



(** ** Reading the keys of a filter record *)

Lemma get_absent (key : string) (o : JsObject) :
  key ∉ keys o -> get key o = VUndefined.
Proof.
  induction o as [|[k v] o IH]; intros H; [reflexivity|].
  simpl in *. apply not_elem_of_cons in H as [Hk Ho].
  destruct (String.eqb_spec k key); [congruence | auto].
Qed.

Lemma get_present (key : string) (v : value) (o : JsObject) :
  NoDup (keys o) -> (key, v) ∈ o -> get key o = v.
Proof.
  induction o as [|[k w] o IH]; intros ND H; [inversion H|].
  simpl in *. apply NoDup_cons in ND as [Hk ND].
  apply elem_of_cons in H as [H|H].
  - injection H as -> ->. now rewrite String.eqb_refl.
  - destruct (String.eqb_spec k key) as [->|]; [|auto].
    exfalso. apply Hk. unfold keys. apply list_elem_of_fmap. now exists (key, v).
Qed.

(** A read does not depend on the order of the entries. *)
Lemma get_perm (key : string) (o o' : JsObject) :
  NoDup (keys o) -> o ≡ₚ o' -> get key o = get key o'.
Proof.
  intros ND P.
  assert (ND' : NoDup (keys o')).
  { unfold keys in *. now rewrite <- P. }
  destruct (decide (key ∈ keys o)) as [I|N].
  - unfold keys in I. apply list_elem_of_fmap in I as ([k v] & -> & I). simpl.
    rewrite (get_present k v o ND I). symmetry. apply get_present; [exact ND'|].
    now rewrite <- P.
  - rewrite (get_absent key o N). symmetry. apply get_absent.
    unfold keys in *. now rewrite <- P.
Qed.

Lemma get_remove_eq (key : string) (o : JsObject) :
  get key (remove key o) = VUndefined.
Proof.
  induction o as [|[k v] o IH]; [reflexivity|]. simpl.
  destruct (String.eqb_spec k key) as [->|N]; [exact IH|].
  simpl. destruct (String.eqb_spec k key); [congruence | exact IH].
Qed.

Lemma get_remove_ne (k key : string) (o : JsObject) :
  k <> key -> get k (remove key o) = get k o.
Proof.
  intros N. induction o as [|[k0 v] o IH]; [reflexivity|]. simpl.
  destruct (String.eqb_spec k0 key) as [->|N0].
  - destruct (String.eqb_spec key k); [congruence | exact IH].
  - simpl. now rewrite IH.
Qed.

(** [findAll] sends one query, whatever the store answers. *)
Lemma run_findAll_log (DB : Type) (exec : string -> list value -> DB -> result QueryResult * DB)
    (s : DB) (filters : option JsObject) :
  (run exec (Job.findAll filters) s).2 = [Job.findAllQuery filters].
Proof.
  unfold Job.findAll. destruct (Job.findAllQuery filters) as [query queryValues].
  simpl. now destruct (exec query queryValues s) as [[r|e] s'].
Qed.

(** ** The job filter builder *)

(** The three checks of [findAll], case by case. *)
Lemma filterClauses_cases (title minSalary hasEquity : value) :
  Job.filterClauses title minSalary hasEquity =
  ((if truthy title then [VStr ("%" +:+ toString title +:+ "%")] else []) ++
   (if decide (minSalary = VUndefined) then [] else [minSalary]),
   (if truthy title then ["title ILIKE $1"] else []) ++
   (if decide (minSalary = VUndefined) then []
    else ["salary >= $" +:+ showNat (if truthy title then 2 else 1)]) ++
   (if decide (hasEquity = VBool true) then ["equity > 0"] else [])).
Proof.
  unfold Job.filterClauses.
  destruct (truthy title), (decide (minSalary = VUndefined)),
    (decide (hasEquity = VBool true)); reflexivity.
Qed.

(** C4. For the filter record [{title: 'en', minSalary: 2}] the
    fragment is [title ILIKE $1 AND salary >= $2] with parameters
    ['%en%', 2], and [findAll] sends it after WHERE. In general a
    title that counts as given is wrapped between two percent signs as
    the first parameter and the minimum salary is compared with [>=]
    as the second, the title always first. *)
Theorem findAll_title_and_minSalary :
  (forall title minSalary : value,
      truthy title = true ->
      minSalary <> VUndefined ->
      Job.filterFragment title minSalary VUndefined =
      ("title ILIKE $1 AND salary >= $2",
       [VStr ("%" +:+ toString title +:+ "%"); minSalary]))
  /\ Job.filterFragment (VStr "en") (VNum 2) VUndefined =
     ("title ILIKE $1 AND salary >= $2", [VStr "%en%"; VNum 2])
  /\ Job.findAllQuery (Some [("title", VStr "en"); ("minSalary", VNum 2)]) =
     (Job.selectSql +:+ " WHERE title ILIKE $1 AND salary >= $2 ORDER BY title",
      [VStr "%en%"; VNum 2]).
Proof.
  split; [|split; reflexivity].
  intros title minSalary T M. unfold Job.filterFragment.
  rewrite filterClauses_cases, T.
  destruct (decide (minSalary = VUndefined)); [congruence | reflexivity].
Qed.

Lemma findAll_title_and_minSalary_witness :
  (truthy (VStr "en") = true /\ VNum 2 <> VUndefined)
  /\ Job.filterFragment (VStr "en") (VNum 2) VUndefined =
     ("title ILIKE $1 AND salary >= $2",
      [VStr ("%" +:+ toString (VStr "en") +:+ "%"); VNum 2]).
Proof.
  split; [split; [reflexivity | discriminate]|].
  apply (proj1 findAll_title_and_minSalary (VStr "en") (VNum 2));
    [reflexivity | discriminate].
Defined.

(** C5. The equity predicate is among the clauses exactly when
    [hasEquity] is strictly [true]. With any other value, [false]
    included, the clauses and parameters are those of the record read
    without [hasEquity], and [findAll] sends the same statement as for
    the record with the key removed. *)
Theorem findAll_hasEquity_only_true :
  (forall title minSalary hasEquity : value,
      "equity > 0" ∈ (Job.filterClauses title minSalary hasEquity).2
      <-> hasEquity = VBool true)
  /\ (forall title minSalary hasEquity : value,
        hasEquity <> VBool true ->
        Job.filterClauses title minSalary hasEquity =
        Job.filterClauses title minSalary VUndefined)
  /\ (forall o : JsObject,
        get "hasEquity" o <> VBool true ->
        Job.findAllQuery (Some o) = Job.findAllQuery (Some (remove "hasEquity" o))).
Proof.
  split; [|split].
  - intros title minSalary hasEquity. rewrite filterClauses_cases. cbn [snd].
    destruct (truthy title), (decide (minSalary = VUndefined)),
      (decide (hasEquity = VBool true)) as [E|E]; cbn [app showNat];
      (split; [intros H | intros H; try congruence]); try exact E;
      rewrite ?elem_of_cons in *; try (now left); try (now right; left);
      try (now right; right; left).
    all: exfalso; repeat (destruct H as [H|H]; [discriminate H|]); inversion H.
  - intros title minSalary hasEquity H. rewrite !filterClauses_cases.
    destruct (decide (hasEquity = VBool true)); [congruence|].
    now destruct (decide (VUndefined = VBool true)).
  - intros o H. unfold Job.findAllQuery, default. cbn [from_option id].
    rewrite get_remove_eq, !get_remove_ne by discriminate.
    rewrite !filterClauses_cases.
    destruct (decide (get "hasEquity" o = VBool true)); [congruence|].
    now destruct (decide (VUndefined = VBool true)).
Qed.

Lemma findAll_hasEquity_only_true_witness :
  VBool false <> VBool true
  /\ Job.filterClauses (VStr "en") (VNum 2) (VBool false) =
     Job.filterClauses (VStr "en") (VNum 2) VUndefined.
Proof.
  split; [discriminate|].
  apply (proj1 (proj2 findAll_hasEquity_only_true)). discriminate.
Defined.

Lemma present_decide (v : value) :
  present v = if decide (v = VUndefined) then false else true.
Proof.
  unfold present. destruct (decide (v = VUndefined)) as [E|E].
  - now rewrite (bool_decide_eq_true_2 _ E).
  - now rewrite (bool_decide_eq_false_2 _ E).
Qed.

Lemma truthy_present (v : value) : truthy v = true -> present v = true.
Proof. intros H. destruct v; try discriminate H; reflexivity. Qed.

(** What [findAll] sends, in terms of the conditions: the clauses,
    if any, are joined with AND after WHERE, and the ORDER BY follows. *)
Lemma findAllQuery_clauses (o : JsObject) :
  Job.findAllQuery (Some o) =
  ((if (0 <? length (Job.filterClauses (get "title" o) (get "minSalary" o)
                       (get "hasEquity" o)).2)%nat
    then Job.selectSql +:+ " WHERE " +:+
         join " AND " (Job.filterClauses (get "title" o) (get "minSalary" o)
                         (get "hasEquity" o)).2
    else Job.selectSql) +:+ " ORDER BY title",
   (Job.filterClauses (get "title" o) (get "minSalary" o) (get "hasEquity" o)).1).
Proof.
  unfold Job.findAllQuery, default. cbn [from_option id].
  now destruct (Job.filterClauses (get "title" o) (get "minSalary" o) (get "hasEquity" o)).
Qed.

(** The fragment of [filterFragment] is the text [findAll] puts after
    WHERE, and its parameters are the parameters [findAll] sends. *)
Lemma findAllQuery_fragment (o : JsObject) :
  Job.findAllQuery (Some o) =
  ((if (0 <? length (Job.filterClauses (get "title" o) (get "minSalary" o)
                       (get "hasEquity" o)).2)%nat
    then Job.selectSql +:+ " WHERE " +:+
         (Job.filterFragment (get "title" o) (get "minSalary" o) (get "hasEquity" o)).1
    else Job.selectSql) +:+ " ORDER BY title",
   (Job.filterFragment (get "title" o) (get "minSalary" o) (get "hasEquity" o)).2).
Proof.
  rewrite findAllQuery_clauses. unfold Job.filterFragment.
  now destruct (Job.filterClauses (get "title" o) (get "minSalary" o) (get "hasEquity" o)).
Qed.

(** C6. For a filter record in which every key that is present is one
    that contributes (a present title is a non-empty one, a present
    [hasEquity] is [true]): every present key gives exactly one clause,
    and the title and the minimum salary exactly one parameter each;
    the statement [Job.findAll] sends is the SELECT, then, if there is
    a clause, WHERE and the clauses joined with AND, then the ORDER BY,
    with those parameters; the clauses come in the order title, minimum
    salary, equity, and the placeholders of the statement are numbered
    in that order from 1, whatever the order of the entries of the
    record. *)
Theorem findAll_composition :
  forall o : JsObject,
    let title := get "title" o in
    let minSalary := get "minSalary" o in
    let hasEquity := get "hasEquity" o in
    (present title = true -> truthy title = true) ->
    (present hasEquity = true -> hasEquity = VBool true) ->
    exists (clauses : list string) (params : list value),
      Job.filterClauses title minSalary hasEquity = (params, clauses)
      /\ clauses =
           (if present title then ["title ILIKE $1"] else []) ++
           (if present minSalary
            then ["salary >= $" +:+ showNat (if present title then 2 else 1)]
            else []) ++
           (if present hasEquity then ["equity > 0"] else [])
      /\ params =
           (if present title then [VStr ("%" +:+ toString title +:+ "%")] else []) ++
           (if present minSalary then [minSalary] else [])
      /\ length clauses =
         Nat.b2n (present title) + Nat.b2n (present minSalary)
         + Nat.b2n (present hasEquity)
      /\ length params = Nat.b2n (present title) + Nat.b2n (present minSalary)
      /\ Job.filterFragment title minSalary hasEquity = (join " AND " clauses, params)
      /\ Job.findAllQuery (Some o) =
         ((if present title || present minSalary || present hasEquity
           then Job.selectSql +:+ " WHERE " +:+ join " AND " clauses
           else Job.selectSql) +:+ " ORDER BY title",
          params)
      /\ (forall (DB : Type)
                 (exec : string -> list value -> DB -> result QueryResult * DB) (s : DB),
            (run exec (Job.findAll (Some o)) s).2 =
            [((if present title || present minSalary || present hasEquity
               then Job.selectSql +:+ " WHERE " +:+ join " AND " clauses
               else Job.selectSql) +:+ " ORDER BY title",
              params)])
      /\ placeholders (join " AND " clauses) = seq 1 (length params)
      /\ placeholders (Job.findAllQuery (Some o)).1 = seq 1 (length params)
      /\ forall o' : JsObject,
           NoDup (keys o) -> o ≡ₚ o' ->
           Job.findAllQuery (Some o') = Job.findAllQuery (Some o)
           /\ Job.filterFragment (get "title" o') (get "minSalary" o')
                (get "hasEquity" o')
              = (join " AND " clauses, params).
Proof.
  intros o title minSalary hasEquity Ht Hh.
  assert (Pt : present title = truthy title).
  { destruct (truthy title) eqn:T; [now apply truthy_present|].
    destruct (present title); [discriminate (Ht eq_refl) | reflexivity]. }
  assert (Ph : present hasEquity = if decide (hasEquity = VBool true) then true else false).
  { destruct (decide (hasEquity = VBool true)) as [E|E]; [now rewrite E|].
    destruct (present hasEquity); [exfalso; apply E, Hh; reflexivity | reflexivity]. }
  assert (F : Job.filterFragment title minSalary hasEquity =
              (join " AND " (Job.filterClauses title minSalary hasEquity).2,
               (Job.filterClauses title minSalary hasEquity).1)).
  { unfold Job.filterFragment.
    now destruct (Job.filterClauses title minSalary hasEquity). }
  pose proof (findAllQuery_clauses o) as Q. fold title minSalary hasEquity in Q.
  eexists. eexists. split; [apply filterClauses_cases|].
  rewrite filterClauses_cases in F, Q. cbn [fst snd] in F, Q.
  rewrite Pt, Ph, (present_decide minSalary).
  assert (Q' : Job.findAllQuery (Some o) =
               ((if truthy title
                    || (if decide (minSalary = VUndefined) then false else true)
                    || (if decide (hasEquity = VBool true) then true else false)
                 then Job.selectSql +:+ " WHERE " +:+
                      join " AND "
                        ((if truthy title then ["title ILIKE $1"] else []) ++
                         (if decide (minSalary = VUndefined) then []
                          else ["salary >= $" +:+ showNat (if truthy title then 2 else 1)])
                         ++ (if decide (hasEquity = VBool true) then ["equity > 0"]
                             else []))
                 else Job.selectSql) +:+ " ORDER BY title",
                (if truthy title then [VStr ("%" +:+ toString title +:+ "%")] else []) ++
                (if decide (minSalary = VUndefined) then [] else [minSalary]))).
  { rewrite Q. now destruct (truthy title), (decide (minSalary = VUndefined)),
      (decide (hasEquity = VBool true)). }
  split; [|split; [|split; [|split; [|split; [|split; [|split; [|split; [|split]]]]]]]].
  - now destruct (truthy title), (decide (minSalary = VUndefined)),
      (decide (hasEquity = VBool true)).
  - now destruct (truthy title), (decide (minSalary = VUndefined)).
  - now destruct (truthy title), (decide (minSalary = VUndefined)),
      (decide (hasEquity = VBool true)).
  - now destruct (truthy title), (decide (minSalary = VUndefined)).
  - exact F.
  - rewrite Q'. now destruct (truthy title), (decide (minSalary = VUndefined)),
      (decide (hasEquity = VBool true)).
  - intros DB exec s. rewrite run_findAll_log, Q'.
    now destruct (truthy title), (decide (minSalary = VUndefined)),
      (decide (hasEquity = VBool true)).
  - now destruct (truthy title), (decide (minSalary = VUndefined)),
      (decide (hasEquity = VBool true)).
  - rewrite Q'. now destruct (truthy title), (decide (minSalary = VUndefined)),
      (decide (hasEquity = VBool true)).
  - intros o' ND P. split.
    + unfold Job.findAllQuery, default. cbn [from_option id].
      now rewrite <- !(get_perm _ o o' ND P).
    + rewrite <- !(get_perm _ o o' ND P). exact F.
Qed.

Lemma findAll_composition_witness :
  ((present (get "title" [("minSalary", VNum 2); ("title", VStr "en")]) = true ->
    truthy (get "title" [("minSalary", VNum 2); ("title", VStr "en")]) = true)
   /\ (present (get "hasEquity" [("minSalary", VNum 2); ("title", VStr "en")]) = true ->
       get "hasEquity" [("minSalary", VNum 2); ("title", VStr "en")] = VBool true))
  /\ exists (clauses : list string) (params : list value),
       Job.filterClauses (VStr "en") (VNum 2) VUndefined = (params, clauses)
       /\ clauses = ["title ILIKE $1"; "salary >= $2"]
       /\ params = [VStr "%en%"; VNum 2]
       /\ Job.findAllQuery (Some [("minSalary", VNum 2); ("title", VStr "en")]) =
          ((Job.selectSql +:+ " WHERE " +:+ join " AND " clauses) +:+ " ORDER BY title",
           params).
Proof.
  split; [split; [reflexivity | discriminate]|].
  destruct (findAll_composition [("minSalary", VNum 2); ("title", VStr "en")])
    as (clauses & params & E & C & P & _ & _ & _ & Q & _);
    [reflexivity | discriminate |].
  exists clauses, params. repeat split; [exact E | exact C | exact P | exact Q].
Defined.

(** C7. For a filter record with none of the keys [title],
    [minSalary], [hasEquity] (and when [findAll] is called with no
    argument) the fragment is the empty text with no parameter, and the
    statement [findAll] sends has no WHERE clause: it is the SELECT
    followed by the ORDER BY. *)
Theorem findAll_no_filters :
  (forall o : JsObject,
      "title" ∉ keys o -> "minSalary" ∉ keys o -> "hasEquity" ∉ keys o ->
      Job.filterFragment (get "title" o) (get "minSalary" o) (get "hasEquity" o)
      = (EmptyString, [])
      /\ Job.findAllQuery (Some o) = (Job.selectSql +:+ " ORDER BY title", [])
      /\ forall (DB : Type) (exec : string -> list value -> DB -> result QueryResult * DB)
                (s : DB),
           (run exec (Job.findAll (Some o)) s).2 =
           [(Job.selectSql +:+ " ORDER BY title", [])])
  /\ Job.findAllQuery None = (Job.selectSql +:+ " ORDER BY title", []).
Proof.
  split; [|reflexivity].
  intros o Ht Hm Hh.
  assert (Q : Job.findAllQuery (Some o) = (Job.selectSql +:+ " ORDER BY title", [])).
  { unfold Job.findAllQuery, default. cbn [from_option id].
    now rewrite (get_absent _ _ Ht), (get_absent _ _ Hm), (get_absent _ _ Hh). }
  split; [|split].
  - now rewrite (get_absent _ _ Ht), (get_absent _ _ Hm), (get_absent _ _ Hh).
  - exact Q.
  - intros DB exec s. now rewrite run_findAll_log, Q.
Qed.

Lemma findAll_no_filters_witness :
  (("title" ∉ keys [("page", VNum 1)])
   /\ ("minSalary" ∉ keys [("page", VNum 1)])
   /\ ("hasEquity" ∉ keys [("page", VNum 1)]))
  /\ Job.findAllQuery (Some [("page", VNum 1)]) = (Job.selectSql +:+ " ORDER BY title", []).
Proof.
  assert (A : forall key : string, key <> "page" -> key ∉ keys [("page", VNum 1)]).
  { intros key N H. apply list_elem_of_singleton in H. contradiction. }
  split; [repeat split; apply A; discriminate|].
  apply (proj1 findAll_no_filters [("page", VNum 1)]); apply A; discriminate.
Defined.

(** ** Placeholders and parameters of whole statements *)

Lemma scan_plain (p rest : string) :
  plainText p = true -> placeholders (p +:+ rest) = placeholders rest.
Proof.
  unfold placeholders. induction p as [|c p IH]; intros H; [reflexivity|].
  simpl in H. apply andb_true_iff in H as [H Hp]. apply andb_true_iff in H as [Hq Hd].
  apply negb_true_iff in Hq, Hd. simpl. rewrite Hq, Hd. auto.
Qed.

(** The statement of [update] around joined pieces: the positions of
    the fields and then the index given for the title. *)
Lemma scan_updateSql (M : gmap string string) (F : JsObject) (k : nat) :
  columnsQuoteFree M F = true ->
  placeholders (Job.updateSql (join ", " (buildSet M 1 F).1) ("$" +:+ showNat k)) =
  seq 1 (length F) ++ [k].
Proof.
  intros Q. unfold Job.updateSql.
  rewrite !scan_plain by reflexivity.
  rewrite (scan_pieces M F 1) by (exact Q || reflexivity). f_equal.
  rewrite !scan_plain by reflexivity.
  rewrite sapp_assoc.
  change ("$" +:+ showNat k +:+ ?r) with (String dollar (showNat k +:+ r)).
  rewrite scan_index by reflexivity. reflexivity.
Qed.

(** Where the placeholders do match the parameters. The placeholders
    read back from the text of a fragment are 1, 2, ... up to the number
    of its parameters: for every fragment and statement of the job
    filter builder, and for the fragment the partial-update builder
    makes of a non-empty field set none of whose columns has a double
    quote in it. For every non-empty [data], [Job.update] sends the
    statement with the builder's SET clause and [WHERE title = $(n+1)],
    [n] the number of fields, and the parameters are the field values
    followed by the title; when no column of [data] has a double quote
    in it, the placeholders of that statement are 1 to [n+1]. *)
Theorem placeholders_match_parameters :
  (forall (F : JsObject) (M : gmap string string),
      F <> [] ->
      columnsQuoteFree M F = true ->
      exists frag : Fragment,
        sqlForPartialUpdate F M = Ok frag
        /\ length (values frag) = length F
        /\ placeholders (setCols frag) = seq 1 (length (values frag)))
  /\ (forall title minSalary hasEquity : value,
        placeholders (Job.filterFragment title minSalary hasEquity).1 =
        seq 1 (length (Job.filterFragment title minSalary hasEquity).2))
  /\ (forall filters : option JsObject,
        placeholders (Job.findAllQuery filters).1 =
        seq 1 (length (Job.findAllQuery filters).2))
  /\ (forall (title : value) (data : JsObject),
        data <> [] ->
        exists (frag : Fragment) (k : QueryResult -> Prog JsObject),
          sqlForPartialUpdate data Job.jsToSql = Ok frag
          /\ values frag = objValues data
          /\ Job.update title data =
             Query (Job.updateSql (setCols frag) ("$" +:+ showNat (length data + 1)))
                   (objValues data ++ [title]) k
          /\ (columnsQuoteFree Job.jsToSql data = true ->
              placeholders
                (Job.updateSql (setCols frag) ("$" +:+ showNat (length data + 1)))
              = seq 1 (length (objValues data ++ [title])))).
Proof.
  split; [|split; [|split]].
  - intros F M NE Q. destruct F as [|f F]; [congruence|].
    eexists. split; [apply sqlForPartialUpdate_cons|]. cbn [values setCols]. split.
    + unfold objValues. apply length_map.
    + rewrite <- (sapp_nil_r (join _ _)).
      rewrite (scan_pieces M (f :: F) 1 EmptyString Q eq_refl).
      unfold objValues. rewrite length_map. apply app_nil_r.
  - intros title minSalary hasEquity. unfold Job.filterFragment.
    rewrite filterClauses_cases.
    now destruct (truthy title), (decide (minSalary = VUndefined)),
      (decide (hasEquity = VBool true)).
  - intros filters. unfold Job.findAllQuery. rewrite filterClauses_cases.
    now destruct (truthy _), (decide (_ = VUndefined)), (decide (_ = VBool true)).
  - intros title data NE. destruct data as [|f F]; [congruence|].
    eexists. eexists. split; [apply sqlForPartialUpdate_cons|]. cbn [values setCols].
    split; [reflexivity|]. split.
    + unfold Job.update. rewrite sqlForPartialUpdate_cons. cbn [values setCols].
      unfold objValues at 1. rewrite length_map. reflexivity.
    + intros Q. rewrite (scan_updateSql Job.jsToSql (f :: F) _ Q).
      rewrite length_app. unfold objValues. rewrite length_map. cbn [length].
      rewrite seq_app. cbn [seq]. do 2 f_equal. lia.
Qed.

Lemma placeholders_match_parameters_witness :
  ([("salary", VNum 10); ("equity", VStr "0.5")] <> []
   /\ columnsQuoteFree Job.jsToSql [("salary", VNum 10); ("equity", VStr "0.5")] = true)
  /\ exists frag : Fragment,
       sqlForPartialUpdate [("salary", VNum 10); ("equity", VStr "0.5")] Job.jsToSql
       = Ok frag
       /\ length (values frag) = 2
       /\ placeholders (setCols frag) = seq 1 (length (values frag)).
Proof.
  split; [split; [discriminate | reflexivity]|].
  apply (proj1 placeholders_match_parameters
           [("salary", VNum 10); ("equity", VStr "0.5")] Job.jsToSql);
    [discriminate | reflexivity].
Defined.

(** ** A double quote in a field name *)




(** ** Job.create *)

Lemma head_nonempty {A : Type} (l : list A) : l <> [] -> exists x, head l = Some x.
Proof. destruct l as [|x l]; [congruence | now exists x]. Qed.

(** On the store in memory, [create] with a job that is there. *)
Lemma memExec_create_duplicate (jobs : list JsObject) (data row : JsObject) :
  row ∈ jobs ->
  matchesJob (get "title" data) (get "companyHandle" data) row = true ->
  run memExec (Job.create data) jobs =
  (Err (BadRequestError
          (Job.duplicateMessage (get "title" data) (get "companyHandle" data))),
   jobs,
   [(Job.duplicateCheckSql, [get "title" data; get "companyHandle" data])]).
Proof.
  intros I Mt. unfold Job.create. cbn [run]. unfold memExec at 1.
  rewrite String.eqb_refl.
  assert (N : List.filter (matchesJob (get "title" data) (get "companyHandle" data)) jobs
              <> []).
  { intros E. apply list_elem_of_In in I.
    assert (I' : In row (List.filter
                           (matchesJob (get "title" data) (get "companyHandle" data)) jobs)).
    { apply filter_In. split; assumption. }
    rewrite E in I'. exact I'. }
  destruct (List.filter _ jobs) as [|r rs]; [congruence|].
  cbn [map rows head]. reflexivity.
Qed.

(** C10. [Job.create] first sends the duplicate check with the title
    and the company handle. If the store answers with a row, [create]
    throws a BadRequestError and that check is the only statement sent:
    no insert is made, and the store is left as the check left it (on
    the store in memory, the jobs table is unchanged). If the store
    answers with no row, [create] sends the insert with the four fields
    and returns the first row of its answer; an error of the store on
    the insert is passed on as it is, not turned into a
    BadRequestError. *)
Theorem create_checks_duplicate_before_insert :
  (forall (DB : Type) (exec : string -> list value -> DB -> result QueryResult * DB)
          (s s1 : DB) (data : JsObject) (duplicateCheck : QueryResult),
      exec Job.duplicateCheckSql [get "title" data; get "companyHandle" data] s
      = (Ok duplicateCheck, s1) ->
      (rows duplicateCheck <> [] ->
       run exec (Job.create data) s =
       (Err (BadRequestError
               (Job.duplicateMessage (get "title" data) (get "companyHandle" data))),
        s1,
        [(Job.duplicateCheckSql, [get "title" data; get "companyHandle" data])]))
      /\ (rows duplicateCheck = [] ->
          forall (answer : result QueryResult) (s2 : DB),
            exec Job.insertSql
              [get "title" data; get "salary" data; get "equity" data;
               get "companyHandle" data] s1 = (answer, s2) ->
            run exec (Job.create data) s =
            (match answer with
             | Ok inserted => Ok (head (rows inserted))
             | Err e => Err e
             end, s2,
             [(Job.duplicateCheckSql, [get "title" data; get "companyHandle" data]);
              (Job.insertSql,
               [get "title" data; get "salary" data; get "equity" data;
                get "companyHandle" data])])))
  /\ (forall (jobs : list JsObject) (data row : JsObject),
        row ∈ jobs ->
        matchesJob (get "title" data) (get "companyHandle" data) row = true ->
        run memExec (Job.create data) jobs =
        (Err (BadRequestError
                (Job.duplicateMessage (get "title" data) (get "companyHandle" data))),
         jobs,
         [(Job.duplicateCheckSql, [get "title" data; get "companyHandle" data])])).
Proof.
  split; [|exact memExec_create_duplicate].
  intros DB exec s s1 data duplicateCheck E. split.
  - intros NE. apply head_nonempty in NE as [r Hr].
    unfold Job.create. cbn [run]. rewrite E, Hr. reflexivity.
  - intros Em answer s2 Ei.
    unfold Job.create. cbn [run]. rewrite E, Em. cbn [head run]. rewrite Ei.
    now destruct answer.
Qed.

Lemma create_checks_duplicate_before_insert_witness :
  (memExec Job.duplicateCheckSql [get "title" newJob; get "companyHandle" newJob]
     [[("title", VStr "new"); ("salary", VNum 1); ("equity", VStr "0.0");
       ("company_handle", VStr "c1")]]
   = (Ok (mkQueryResult [[("title", VStr "new"); ("company_handle", VStr "c1")]]),
      [[("title", VStr "new"); ("salary", VNum 1); ("equity", VStr "0.0");
        ("company_handle", VStr "c1")]])
   /\ rows (mkQueryResult [[("title", VStr "new"); ("company_handle", VStr "c1")]]) <> [])
  /\ run memExec (Job.create newJob)
       [[("title", VStr "new"); ("salary", VNum 1); ("equity", VStr "0.0");
         ("company_handle", VStr "c1")]]
     = (Err (BadRequestError
               (Job.duplicateMessage (get "title" newJob) (get "companyHandle" newJob))),
        [[("title", VStr "new"); ("salary", VNum 1); ("equity", VStr "0.0");
          ("company_handle", VStr "c1")]],
        [(Job.duplicateCheckSql, [get "title" newJob; get "companyHandle" newJob])]).
Proof.
  split; [split; [reflexivity | discriminate]|].
  apply (proj1 (proj1 create_checks_duplicate_before_insert
                  (list JsObject) memExec
                  [[("title", VStr "new"); ("salary", VNum 1); ("equity", VStr "0.0");
                    ("company_handle", VStr "c1")]]
                  [[("title", VStr "new"); ("salary", VNum 1); ("equity", VStr "0.0");
                    ("company_handle", VStr "c1")]]
                  newJob
                  (mkQueryResult [[("title", VStr "new"); ("company_handle", VStr "c1")]])
                  eq_refl)).
  discriminate.
Defined.

(** The create tests on the store in memory: the first [create] of
    [newJob] on an empty table inserts it and returns it; the second is
    refused and leaves the table as it was. *)
Example create_twice :
  run memExec (Job.create newJob) [] =
  (Ok (Some newJob),
   [[("title", VStr "new"); ("salary", VNum 1); ("equity", VStr "0.0");
     ("company_handle", VStr "c1")]],
   [(Job.duplicateCheckSql, [VStr "new"; VStr "c1"]);
    (Job.insertSql, [VStr "new"; VNum 1; VStr "0.0"; VStr "c1"])])
  /\ run memExec (Job.create newJob)
       [[("title", VStr "new"); ("salary", VNum 1); ("equity", VStr "0.0");
         ("company_handle", VStr "c1")]] =
     (Err (BadRequestError "Duplicate job: new at c1"),
      [[("title", VStr "new"); ("salary", VNum 1); ("equity", VStr "0.0");
        ("company_handle", VStr "c1")]],
      [(Job.duplicateCheckSql, [VStr "new"; VStr "c1"])]).
Proof. split; vm_compute; reflexivity. Qed.

(** * Further properties of models/job.js *)

(** ** Sequencing *)

Lemma run_andThen_Ret {A : Type} (DB : Type)
    (exec : string -> list value -> DB -> result QueryResult * DB) (p : Prog A) :
  forall s : DB, run exec (andThen p (fun x => Ret x)) s = run exec p s.
Proof.
  induction p as [a|e|sql params k IH]; intros s; try reflexivity.
  cbn [andThen run]. destruct (exec sql params s) as [[r|e] s']; [|reflexivity].
  now rewrite IH.
Qed.

Lemma findAllQuery_wellNumbered (filters : option JsObject) :
  wellNumbered (Job.findAllQuery filters).
Proof.
  unfold wellNumbered, Job.findAllQuery. rewrite filterClauses_cases.
  now destruct (truthy _), (decide (_ = VUndefined)), (decide (_ = VBool true)).
Qed.

(** ** get, remove, update: the job that is not there *)

(** X1. [Job.get], [Job.remove] and [Job.update] send one statement
    with the title as its last parameter. When the store answers it
    with no row they throw NotFoundError with the message
    [No job: <title>]; when it answers with rows, [get] and [update]
    return the first one and [remove] returns nothing. An error of the
    store is passed on as it is. *)
Theorem job_not_found_contract :
  forall (DB : Type) (exec : string -> list value -> DB -> result QueryResult * DB)
         (s : DB) (title : value),
    let outcome (A : Type) (found : JsObject -> A) (answer : result QueryResult) :=
      match answer with
      | Ok r =>
          match head (rows r) with
          | Some job => Ok (found job)
          | None => Err (NotFoundError ("No job: " +:+ toString title))
          end
      | Err e => Err e
      end in
    run exec (Job.get title) s =
      (outcome JsObject (fun job => job) (exec Job.getSql [title] s).1,
       (exec Job.getSql [title] s).2, [(Job.getSql, [title])])
    /\ run exec (Job.remove title) s =
       (outcome unit (fun _ => tt) (exec Job.deleteSql [title] s).1,
        (exec Job.deleteSql [title] s).2, [(Job.deleteSql, [title])])
    /\ forall (data : JsObject) (frag : Fragment),
         sqlForPartialUpdate data Job.jsToSql = Ok frag ->
         let sql := Job.updateSql (setCols frag)
                      ("$" +:+ showNat (length (values frag) + 1)) in
         run exec (Job.update title data) s =
         (outcome JsObject (fun job => job) (exec sql (values frag ++ [title]) s).1,
          (exec sql (values frag ++ [title]) s).2, [(sql, values frag ++ [title])]).
Proof.
  intros DB exec s title outcome. split; [|split].
  - unfold Job.get. cbn [run]. destruct (exec Job.getSql [title] s) as [[r|e] s'];
      [|reflexivity].
    subst outcome. cbn [fst snd]. now destruct (head (rows r)).
  - unfold Job.remove. cbn [run]. destruct (exec Job.deleteSql [title] s) as [[r|e] s'];
      [|reflexivity].
    subst outcome. cbn [fst snd]. now destruct (head (rows r)).
  - intros data frag E sql. unfold Job.update. rewrite E. cbn [run]. fold sql.
    destruct (exec sql (values frag ++ [title]) s) as [[r|e] s']; [|reflexivity].
    subst outcome. cbn [fst snd]. now destruct (head (rows r)).
Qed.

Lemma job_not_found_contract_witness :
  sqlForPartialUpdate [("salary", VNum 10)] Job.jsToSql
  = Ok (mkFragment (str dquote +:+ "salary" +:+ str dquote +:+ "=$1") [VNum 10])
  /\ run (fun _ _ (s : unit) => (Ok (mkQueryResult []), s))
       (Job.update (VStr "nope") [("salary", VNum 10)]) tt =
     (Err (NotFoundError "No job: nope"), tt,
      [(Job.updateSql (str dquote +:+ "salary" +:+ str dquote +:+ "=$1") "$2",
        [VNum 10; VStr "nope"])]).
Proof.
  split; [reflexivity|].
  exact (proj2 (proj2 (job_not_found_contract unit
                         (fun _ _ (s : unit) => (Ok (mkQueryResult []), s))
                         tt (VStr "nope")))
           [("salary", VNum 10)]
           (mkFragment (str dquote +:+ "salary" +:+ str dquote +:+ "=$1") [VNum 10])
           eq_refl).
Defined.

(** ** Every statement sent is numbered like its parameters *)

(** X2. Whatever the input, the store and its state, every call that
    [Job.create], [Job.get], [Job.remove] and [Job.findAll] make has
    placeholders 1, 2, ... up to the number of parameters it is sent
    with. *)
Theorem job_calls_wellNumbered :
  forall (DB : Type) (exec : string -> list value -> DB -> result QueryResult * DB)
         (s : DB),
    (forall data : JsObject, Forall wellNumbered (run exec (Job.create data) s).2)
    /\ (forall title : value, Forall wellNumbered (run exec (Job.get title) s).2)
    /\ (forall title : value, Forall wellNumbered (run exec (Job.remove title) s).2)
    /\ (forall filters : option JsObject,
          Forall wellNumbered (run exec (Job.findAll filters) s).2).
Proof.
  intros DB exec s.
  assert (Hd : forall t h : value, wellNumbered (Job.duplicateCheckSql, [t; h]))
    by (intros; reflexivity).
  assert (Hi : forall t a e h : value, wellNumbered (Job.insertSql, [t; a; e; h]))
    by (intros; reflexivity).
  assert (Hg : forall t : value, wellNumbered (Job.getSql, [t])) by (intros; reflexivity).
  assert (Hr : forall t : value, wellNumbered (Job.deleteSql, [t]))
    by (intros; reflexivity).
  split; [|split; [|split]].
  - intros data. unfold Job.create. cbn [run].
    destruct (exec Job.duplicateCheckSql _ s) as [[r|e] s1];
      [|repeat constructor; apply Hd].
    destruct (head (rows r)); cbn [run]; [repeat constructor; apply Hd|].
    destruct (exec Job.insertSql _ s1) as [[r2|e2] s2];
      repeat constructor; solve [apply Hd | apply Hi].
  - intros title. unfold Job.get. cbn [run].
    destruct (exec Job.getSql [title] s) as [[r|e] s1];
      [destruct (head (rows r))|]; repeat constructor; apply Hg.
  - intros title. unfold Job.remove. cbn [run].
    destruct (exec Job.deleteSql [title] s) as [[r|e] s1];
      [destruct (head (rows r))|]; repeat constructor; apply Hr.
  - intros filters. rewrite run_findAll_log. repeat constructor.
    apply findAllQuery_wellNumbered.
Qed.

(** ** The filter values stay out of the statement text *)

(** X3. The text of the statement [Job.findAll] sends depends only on
    which conditions apply (a title that counts as given, a minimum
    salary that is not undefined, [hasEquity] that is [true]), never on
    the values: two filter records that agree on these three send the
    same text to any two stores. The values travel as parameters only. *)
Theorem findAll_text_ignores_values :
  forall (o o' : JsObject),
    truthy (get "title" o) = truthy (get "title" o') ->
    isUndefined (get "minSalary" o) = isUndefined (get "minSalary" o') ->
    strictEq (get "hasEquity" o) (VBool true) = strictEq (get "hasEquity" o') (VBool true) ->
    (Job.findAllQuery (Some o)).1 = (Job.findAllQuery (Some o')).1
    /\ forall (DB1 DB2 : Type)
              (exec1 : string -> list value -> DB1 -> result QueryResult * DB1)
              (exec2 : string -> list value -> DB2 -> result QueryResult * DB2)
              (s1 : DB1) (s2 : DB2),
         map fst (run exec1 (Job.findAll (Some o)) s1).2
         = map fst (run exec2 (Job.findAll (Some o')) s2).2.
Proof.
  intros o o' Ht Hm Hh.
  assert (Q : (Job.findAllQuery (Some o)).1 = (Job.findAllQuery (Some o')).1).
  { unfold Job.findAllQuery, default. cbn [from_option id].
    rewrite !filterClauses_cases. rewrite <- Ht.
    unfold isUndefined, strictEq in Hm, Hh.
    destruct (decide (get "minSalary" o = VUndefined)) as [E1|E1],
             (decide (get "minSalary" o' = VUndefined)) as [E2|E2];
      try (rewrite (bool_decide_eq_true_2 _ E1) in Hm);
      try (rewrite (bool_decide_eq_false_2 _ E1) in Hm);
      try (rewrite (bool_decide_eq_true_2 _ E2) in Hm);
      try (rewrite (bool_decide_eq_false_2 _ E2) in Hm);
      try discriminate Hm;
      destruct (decide (get "hasEquity" o = VBool true)) as [E3|E3],
               (decide (get "hasEquity" o' = VBool true)) as [E4|E4];
      try (rewrite (bool_decide_eq_true_2 _ E3) in Hh);
      try (rewrite (bool_decide_eq_false_2 _ E3) in Hh);
      try (rewrite (bool_decide_eq_true_2 _ E4) in Hh);
      try (rewrite (bool_decide_eq_false_2 _ E4) in Hh);
      try discriminate Hh;
      now destruct (truthy (get "title" o)). }
  split; [exact Q|].
  intros. rewrite !run_findAll_log. cbn [map]. now rewrite Q.
Qed.

Lemma findAll_text_ignores_values_witness :
  (truthy (get "title" [("title", VStr "en")])
   = truthy (get "title" [("title", VStr "' OR 1=1 --")])
   /\ isUndefined (get "minSalary" [("title", VStr "en")])
      = isUndefined (get "minSalary" [("title", VStr "' OR 1=1 --")])
   /\ strictEq (get "hasEquity" [("title", VStr "en")]) (VBool true)
      = strictEq (get "hasEquity" [("title", VStr "' OR 1=1 --")]) (VBool true))
  /\ (Job.findAllQuery (Some [("title", VStr "en")])).1
     = (Job.findAllQuery (Some [("title", VStr "' OR 1=1 --")])).1.
Proof.
  split; [repeat split|].
  apply (findAll_text_ignores_values
           [("title", VStr "en")] [("title", VStr "' OR 1=1 --")]); reflexivity.
Defined.

(** ** Which values switch a condition of findAll on *)

(** X4. [Job.findAll] tests the title for truth and the minimum salary
    against undefined only. So a title that is the empty string (or
    null, 0, false) is ignored: the call is the one for the record
    without the title. But a minimum salary that is anything else than
    undefined, null, 0 and the empty string included, makes the salary
    condition: the value is the last parameter and the clause carries
    its index. *)
Theorem findAll_title_truth_minSalary_undefined :
  (forall o : JsObject,
      truthy (get "title" o) = false ->
      Job.findAllQuery (Some o) = Job.findAllQuery (Some (remove "title" o)))
  /\ (forall o : JsObject,
        get "minSalary" o <> VUndefined ->
        last (Job.findAllQuery (Some o)).2 = Some (get "minSalary" o)
        /\ ("salary >= $" +:+ showNat (length (Job.findAllQuery (Some o)).2))
           ∈ (Job.filterClauses (get "title" o) (get "minSalary" o) (get "hasEquity" o)).2).
Proof.
  split.
  - intros o T. unfold Job.findAllQuery, default. cbn [from_option id].
    rewrite get_remove_eq, !get_remove_ne by discriminate.
    rewrite !filterClauses_cases, T. reflexivity.
  - intros o M. unfold Job.findAllQuery, default. cbn [from_option id].
    rewrite !filterClauses_cases. cbn [snd].
    destruct (decide (get "minSalary" o = VUndefined)) as [E|_]; [congruence|].
    destruct (truthy (get "title" o)), (decide (get "hasEquity" o = VBool true));
      (split; [reflexivity|]); cbn [app length showNat];
      rewrite ?elem_of_cons; auto.
Qed.

Lemma findAll_title_truth_minSalary_undefined_witness :
  (truthy (get "title" [("title", VStr EmptyString); ("minSalary", VNull)]) = false
   /\ get "minSalary" [("title", VStr EmptyString); ("minSalary", VNull)] <> VUndefined)
  /\ Job.findAllQuery (Some [("title", VStr EmptyString); ("minSalary", VNull)])
     = Job.findAllQuery (Some (remove "title"
                                 [("title", VStr EmptyString); ("minSalary", VNull)]))
  /\ last (Job.findAllQuery (Some [("title", VStr EmptyString); ("minSalary", VNull)])).2
     = Some VNull.
Proof.
  split; [split; [reflexivity | discriminate]|]. split.
  - apply (proj1 findAll_title_truth_minSalary_undefined). reflexivity.
  - apply (proj2 findAll_title_truth_minSalary_undefined
             [("title", VStr EmptyString); ("minSalary", VNull)]).
    discriminate.
Defined.

(** ** The two statements of create *)

(** X5. Whatever the store does, [Job.create] sends the duplicate
    check first and at most the insert after it, and the insert is sent
    exactly when the store answered the check with no row. When the
    check itself fails in the store, that error is the outcome of
    [create]. *)
Theorem create_insert_only_after_empty_check :
  forall (DB : Type) (exec : string -> list value -> DB -> result QueryResult * DB)
         (s : DB) (data : JsObject),
    let check : Call :=
      (Job.duplicateCheckSql, [get "title" data; get "companyHandle" data]) in
    let insert : Call :=
      (Job.insertSql,
       [get "title" data; get "salary" data; get "equity" data;
        get "companyHandle" data]) in
    ((run exec (Job.create data) s).2 = [check]
     \/ (run exec (Job.create data) s).2 = [check; insert])
    /\ ((run exec (Job.create data) s).2 = [check; insert]
        <-> exists (r : QueryResult) (s1 : DB),
              exec check.1 check.2 s = (Ok r, s1) /\ rows r = [])
    /\ (forall (e : Error) (s1 : DB),
          exec check.1 check.2 s = (Err e, s1) ->
          run exec (Job.create data) s = (Err e, s1, [check])).
Proof.
  intros DB exec s data check insert. unfold Job.create. cbn [run]. fold check.
  change (exec check.1 check.2 s) with
    (exec Job.duplicateCheckSql [get "title" data; get "companyHandle" data] s).
  destruct (exec Job.duplicateCheckSql _ s) as [[r|e] s1] eqn:E.
  - destruct (rows r) as [|row more] eqn:R; cbn [head run].
    + fold insert.
      assert (L : (let '(out, s'', log) :=
                     match exec Job.insertSql insert.2 s1 with
                     | (Ok r0, s') => (Ok (head (rows r0)), s', [insert])
                     | (Err e, s') => (Err e, s', [insert])
                     end in (out, s'', check :: log)).2 = [check; insert]).
      { now destruct (exec Job.insertSql insert.2 s1) as [[r0|e0] s2]. }
      change (exec Job.insertSql _ s1) with (exec Job.insertSql insert.2 s1).
      change (Job.insertSql, insert.2) with insert. cbn [run] in *.
      split; [right; exact L|]. split; [|intros e0 s0 H; discriminate H].
      split; [intros _; now exists r, s1 | intros _; exact L].
    + split; [now left|]. split; [|intros e0 s0 H; discriminate H].
      split; [intros H; discriminate H|].
      intros (r' & s' & H & R'). injection H as <- <-. congruence.
  - split; [now left|]. split.
    + split; [intros H; discriminate H | intros (r' & s' & H & _); discriminate H].
    + intros e0 s0 H. now injection H as <- <-.
Qed.

Lemma create_insert_only_after_empty_check_witness :
  (fun (_ : string) (_ : list value) (s : unit) =>
     (Err (StorageError "relation jobs does not exist"), s) : result QueryResult * unit)
    Job.duplicateCheckSql [get "title" newJob; get "companyHandle" newJob] tt
  = (Err (StorageError "relation jobs does not exist"), tt)
  /\ run (fun _ _ (s : unit) => (Err (StorageError "relation jobs does not exist"), s))
       (Job.create newJob) tt
     = (Err (StorageError "relation jobs does not exist"), tt,
        [(Job.duplicateCheckSql, [get "title" newJob; get "companyHandle" newJob])]).
Proof.
  split; [reflexivity|].
  exact (proj2 (proj2 (create_insert_only_after_empty_check unit
                         (fun _ _ (s : unit) =>
                            (Err (StorageError "relation jobs does not exist"), s))
                         tt newJob))
           (StorageError "relation jobs does not exist") tt eq_refl).
Defined.

(** * Properties of routes/jobs.js and routes/companies.js *)

(** ** The keys that are not allowed *)

Lemma includes_elem (xs : list string) (x : string) :
  includes xs x = true <-> x ∈ xs.
Proof.
  unfold includes. rewrite existsb_exists, list_elem_of_In. split.
  - intros (y & I & E). apply String.eqb_eq in E. now subst y.
  - intros I. exists x. split; [exact I | apply String.eqb_refl].
Qed.

Lemma not_included_elem (allowed ks : list string) (k : string) :
  k ∈ List.filter (fun key => negb (includes allowed key)) ks
  <-> k ∈ ks /\ k ∉ allowed.
Proof.
  rewrite list_elem_of_In, filter_In, negb_true_iff, <- list_elem_of_In.
  pose proof (includes_elem allowed k) as S.
  split; intros [I N]; (split; [exact I|]).
  - intros A. apply S in A. congruence.
  - destruct (includes allowed k); [|reflexivity]. exfalso. apply N, S. reflexivity.
Qed.

Lemma not_included_nil (allowed ks : list string) :
  List.filter (fun key => negb (includes allowed key)) ks = []
  <-> forall k, k ∈ ks -> k ∈ allowed.
Proof.
  split.
  - intros E k I. destruct (decide (k ∈ allowed)) as [A|A]; [exact A|].
    assert (H : k ∈ List.filter (fun key => negb (includes allowed key)) ks)
      by now apply not_included_elem.
    rewrite E in H. inversion H.
  - intros H. destruct (List.filter _ ks) as [|k l] eqn:E; [reflexivity|].
    assert (I : k ∈ List.filter (fun key => negb (includes allowed key)) ks)
      by (rewrite E; left).
    apply not_included_elem in I as [I N]. now apply H in I.
Qed.

(** Removing an allowed key from the query does not change the keys
    that are refused. *)
Lemma not_included_remove (allowed : list string) (key : string) (o : JsObject) :
  key ∈ allowed ->
  List.filter (fun k => negb (includes allowed k)) (keys (remove key o))
  = List.filter (fun k => negb (includes allowed k)) (keys o).
Proof.
  intros A. induction o as [|[k v] o IH]; [reflexivity|]. simpl.
  destruct (String.eqb_spec k key) as [->|N].
  - apply includes_elem in A. rewrite A. exact IH.
  - simpl. now rewrite IH.
Qed.

(** X6. [GET /jobs] with a key other than [title], [minSalary] and
    [hasEquity] in the query is refused with a BadRequestError whose
    message lists exactly the keys of the query that are not allowed,
    in the order of the query, and nothing is sent to the store; a
    query with allowed keys only is never refused for its keys. *)
Theorem getJobs_refuses_unknown_keys :
  forall (toNumber : value -> number) (filters : JsObject),
    (forall key : string,
        key ∈ JobsRouter.invalidFilters filters
        <-> key ∈ keys filters /\ key ∉ JobsRouter.allowedFilters)
    /\ ((exists key : string, key ∈ keys filters /\ key ∉ JobsRouter.allowedFilters) ->
        JobsRouter.getJobs toNumber filters =
        Throw (BadRequestError
                 ("Invalid filters: " +:+ join ", " (JobsRouter.invalidFilters filters)
                  +:+ ". Allowed filters are: title, minSalary, hasEquity")))
    /\ ((forall key : string, key ∈ keys filters -> key ∈ JobsRouter.allowedFilters) ->
        JobsRouter.invalidFilters filters = []).
Proof.
  intros toNumber filters. split; [|split].
  - intros key. apply not_included_elem.
  - intros (key & I & N). unfold JobsRouter.getJobs.
    assert (H : key ∈ JobsRouter.invalidFilters filters) by now apply not_included_elem.
    destruct (JobsRouter.invalidFilters filters) as [|k l]; [inversion H | reflexivity].
  - intros H. now apply not_included_nil.
Qed.

Lemma getJobs_refuses_unknown_keys_witness :
  (exists key : string,
      key ∈ keys [("salary", VStr "5"); ("title", VStr "en"); ("page", VStr "2")]
      /\ key ∉ JobsRouter.allowedFilters)
  /\ JobsRouter.getJobs digitsToNumber
       [("salary", VStr "5"); ("title", VStr "en"); ("page", VStr "2")]
     = Throw (BadRequestError
                "Invalid filters: salary, page. Allowed filters are: title, minSalary, hasEquity").
Proof.
  assert (H : exists key : string,
             key ∈ keys [("salary", VStr "5"); ("title", VStr "en"); ("page", VStr "2")]
             /\ key ∉ JobsRouter.allowedFilters).
  { exists "salary". split; [left|].
    intros I. apply includes_elem in I. discriminate I. }
  split; [exact H|].
  exact (proj1 (proj2 (getJobs_refuses_unknown_keys digitsToNumber
                         [("salary", VStr "5"); ("title", VStr "en"); ("page", VStr "2")]))
           H).
Defined.

(** ** The checks of GET /jobs *)

Lemma isUndefined_true (v : value) : isUndefined v = true <-> v = VUndefined.
Proof. unfold isUndefined. apply bool_decide_eq_true. Qed.

Lemma isUndefined_false (v : value) : v <> VUndefined -> isUndefined v = false.
Proof. unfold isUndefined. apply bool_decide_eq_false_2. Qed.

Lemma strictEq_true (a b : value) : strictEq a b = true <-> a = b.
Proof. unfold strictEq. apply bool_decide_eq_true. Qed.

Lemma isNaN_true (n : number) : isNaN n = true <-> n = NaN.
Proof. destruct n; simpl; split; congruence. Qed.

(** The second and the third check of the handler, as conditions. *)
Lemma minSalary_check_passes (toNumber : value -> number) (minSalary : value) :
  negb (isUndefined minSalary) && isNaN (toNumber minSalary) = false
  <-> minSalary = VUndefined \/ toNumber minSalary <> NaN.
Proof.
  rewrite andb_false_iff, negb_false_iff, isUndefined_true.
  rewrite <- (isNaN_true (toNumber minSalary)).
  destruct (isNaN (toNumber minSalary)); intuition congruence.
Qed.

Lemma hasEquity_check_passes (hasEquity : value) :
  negb (isUndefined hasEquity)
  && negb (strictEq hasEquity (VStr "true") || strictEq hasEquity (VStr "false")) = false
  <-> hasEquity = VUndefined \/ hasEquity = VStr "true" \/ hasEquity = VStr "false".
Proof.
  rewrite andb_false_iff, !negb_false_iff, orb_true_iff, isUndefined_true, !strictEq_true.
  reflexivity.
Qed.

Lemma getJobs_passes (toNumber : value -> number) (filters : JsObject) :
  JobsRouter.invalidFilters filters = [] ->
  negb (isUndefined (get "minSalary" filters))
  && isNaN (toNumber (get "minSalary" filters)) = false ->
  negb (isUndefined (get "hasEquity" filters))
  && negb (strictEq (get "hasEquity" filters) (VStr "true")
           || strictEq (get "hasEquity" filters) (VStr "false")) = false ->
  JobsRouter.getJobs toNumber filters =
  andThen
    (Job.findAll
       (Some (JobsRouter.sanitize toNumber (get "title" filters)
                (get "minSalary" filters) (get "hasEquity" filters))))
    (fun jobs => Ret jobs).
Proof. intros E M H. unfold JobsRouter.getJobs. now rewrite E, M, H. Qed.

(** X7. [GET /jobs] checks the whole query before it sends anything.
    A query is accepted exactly when all its keys are allowed, its
    [minSalary] (if given) converts to a number and its [hasEquity] (if
    given) is the string [true] or [false]. An accepted query behaves
    as [Job.findAll] on the sanitized record, on any store. Any other
    query is answered with a BadRequestError and no statement is sent:
    the store is left as it was. With allowed keys, a [minSalary] that
    is no number is reported before a wrong [hasEquity]. *)
Theorem getJobs_validates_before_query :
  forall (toNumber : value -> number) (filters : JsObject),
    let title := get "title" filters in
    let minSalary := get "minSalary" filters in
    let hasEquity := get "hasEquity" filters in
    let keysAllowed : Prop :=
      forall key : string, key ∈ keys filters -> key ∈ JobsRouter.allowedFilters in
    let minSalaryNumeric : Prop := minSalary = VUndefined \/ toNumber minSalary <> NaN in
    let hasEquityBoolean : Prop :=
      hasEquity = VUndefined \/ hasEquity = VStr "true" \/ hasEquity = VStr "false" in
    (keysAllowed /\ minSalaryNumeric /\ hasEquityBoolean ->
     forall (DB : Type) (exec : string -> list value -> DB -> result QueryResult * DB)
            (s : DB),
       run exec (JobsRouter.getJobs toNumber filters) s =
       run exec
         (Job.findAll (Some (JobsRouter.sanitize toNumber title minSalary hasEquity))) s)
    /\ (~ (keysAllowed /\ minSalaryNumeric /\ hasEquityBoolean) ->
        exists message : string,
          JobsRouter.getJobs toNumber filters = Throw (BadRequestError message)
          /\ forall (DB : Type)
                    (exec : string -> list value -> DB -> result QueryResult * DB)
                    (s : DB),
               run exec (JobsRouter.getJobs toNumber filters) s
               = (Err (BadRequestError message), s, []))
    /\ (keysAllowed -> ~ minSalaryNumeric ->
        JobsRouter.getJobs toNumber filters =
        Throw (BadRequestError "minSalary must be a valid number"))
    /\ (keysAllowed -> minSalaryNumeric -> ~ hasEquityBoolean ->
        JobsRouter.getJobs toNumber filters =
        Throw (BadRequestError "hasEquity must be 'true' or 'false'")).
Proof.
  intros toNumber filters title minSalary hasEquity keysAllowed minSalaryNumeric
    hasEquityBoolean.
  pose proof (not_included_nil JobsRouter.allowedFilters (keys filters)) as K.
  fold (JobsRouter.invalidFilters filters) in K. fold keysAllowed in K.
  pose proof (minSalary_check_passes toNumber minSalary) as M. fold minSalaryNumeric in M.
  pose proof (hasEquity_check_passes hasEquity) as H. fold hasEquityBoolean in H.
  assert (R2 : keysAllowed -> ~ minSalaryNumeric ->
               JobsRouter.getJobs toNumber filters =
               Throw (BadRequestError "minSalary must be a valid number")).
  { intros A N. unfold JobsRouter.getJobs. rewrite (proj2 K A). cbn [length Nat.ltb Nat.leb].
    fold minSalary.
    destruct (negb (isUndefined minSalary) && isNaN (toNumber minSalary));
      [reflexivity | exfalso; apply N, M; reflexivity]. }
  assert (R3 : keysAllowed -> minSalaryNumeric -> ~ hasEquityBoolean ->
               JobsRouter.getJobs toNumber filters =
               Throw (BadRequestError "hasEquity must be 'true' or 'false'")).
  { intros A B N. unfold JobsRouter.getJobs. rewrite (proj2 K A).
    cbn [length Nat.ltb Nat.leb]. fold minSalary hasEquity. rewrite (proj2 M B).
    destruct (negb (isUndefined hasEquity) && _);
      [reflexivity | exfalso; apply N, H; reflexivity]. }
  split; [|split; [|split]].
  - intros (A & B & C) DB exec s.
    rewrite (getJobs_passes toNumber filters (proj2 K A) (proj2 M B) (proj2 H C)).
    apply run_andThen_Ret.
  - intros N.
    assert (E : exists message : string,
               JobsRouter.getJobs toNumber filters = Throw (BadRequestError message)).
    { destruct (JobsRouter.invalidFilters filters) as [|k l] eqn:I.
      - specialize (proj1 K eq_refl) as A.
        destruct (negb (isUndefined minSalary) && isNaN (toNumber minSalary)) eqn:Cm.
        + eexists. apply R2; [exact A|]. intros B. apply M in B. discriminate B.
        + specialize (proj1 M eq_refl) as B.
          destruct (negb (isUndefined hasEquity)
                    && negb (strictEq hasEquity (VStr "true")
                             || strictEq hasEquity (VStr "false"))) eqn:Ch.
          * eexists. apply R3; [exact A | exact B |]. intros C. apply H in C.
            discriminate C.
          * exfalso. apply N. split; [exact A|]. split; [exact B|]. now apply H.
      - eexists. unfold JobsRouter.getJobs. rewrite I. reflexivity. }
    destruct E as [message E]. exists message. split; [exact E|].
    intros DB exec s. now rewrite E.
  - exact R2.
  - exact R3.
Qed.

Lemma getJobs_validates_before_query_witness :
  ((forall key : string,
       key ∈ keys [("minSalary", VStr "lots")] -> key ∈ JobsRouter.allowedFilters)
   /\ ~ (get "minSalary" [("minSalary", VStr "lots")] = VUndefined
         \/ digitsToNumber (get "minSalary" [("minSalary", VStr "lots")]) <> NaN))
  /\ JobsRouter.getJobs digitsToNumber [("minSalary", VStr "lots")]
     = Throw (BadRequestError "minSalary must be a valid number").
Proof.
  assert (A : forall key : string,
             key ∈ keys [("minSalary", VStr "lots")] -> key ∈ JobsRouter.allowedFilters).
  { intros key I. apply list_elem_of_singleton in I. subst key. right. left. }
  assert (B : ~ (get "minSalary" [("minSalary", VStr "lots")] = VUndefined
                 \/ digitsToNumber (get "minSalary" [("minSalary", VStr "lots")]) <> NaN)).
  { intros [C|C]; [discriminate C | apply C; reflexivity]. }
  split; [split; [exact A | exact B]|].
  exact (proj1 (proj2 (proj2 (getJobs_validates_before_query digitsToNumber
                                [("minSalary", VStr "lots")]))) A B).
Defined.

(** ** What GET /jobs hands to the model *)

(** X8. The record [GET /jobs] builds for [Job.findAll] has only the
    keys [title], [minSalary], [hasEquity], each at most once and in
    that order, and every key in it switches its condition on: a title
    in it counts as given, a minimum salary in it is a number, and
    [hasEquity] in it is [true]. The strings [true] and [false] of the
    query never get to the model. *)
Theorem sanitize_record_shape :
  forall (toNumber : value -> number) (title minSalary hasEquity : value),
    let o := JobsRouter.sanitize toNumber title minSalary hasEquity in
    NoDup (keys o)
    /\ (exists a b c : bool,
          keys o = (if a then ["title"] else []) ++ (if b then ["minSalary"] else [])
                   ++ (if c then ["hasEquity"] else []))
    /\ (get "title" o = VUndefined \/ (get "title" o = title /\ truthy title = true))
    /\ (get "minSalary" o = VUndefined
        \/ exists z : Z, get "minSalary" o = VNum z /\ toNumber minSalary = Num z)
    /\ (get "hasEquity" o = VUndefined
        \/ (get "hasEquity" o = VBool true /\ hasEquity = VStr "true")).
Proof.
  intros toNumber title minSalary hasEquity o. subst o. unfold JobsRouter.sanitize.
  assert (ND : forall a b c : bool,
             NoDup ((if a then ["title"] else []) ++ (if b then ["minSalary"] else [])
                    ++ (if c then ["hasEquity"] else []))).
  { intros [|] [|] [|]; compute_done. }
  destruct (truthy title) eqn:T;
    destruct (isUndefined minSalary) eqn:U;
    [| destruct (toNumber minSalary) as [|z] eqn:N
     | | destruct (toNumber minSalary) as [|z] eqn:N];
    destruct (strictEq hasEquity (VStr "true")) eqn:S;
    try (apply strictEq_true in S);
    cbn [app keys map fst get String.eqb Ascii.eqb Bool.eqb];
    (split; [|split; [|split; [|split]]]);
    try (left; reflexivity);
    try (right; split; reflexivity || assumption);
    try (right; exists z; split; reflexivity);
    try match goal with
        | |- NoDup ?l =>
            first [ exact (ND true true true) | exact (ND true true false)
                  | exact (ND true false true) | exact (ND true false false)
                  | exact (ND false true true) | exact (ND false true false)
                  | exact (ND false false true) | exact (ND false false false) ]
        | |- exists a b c : bool, ?l = _ =>
            first [ now exists true, true, true | now exists true, true, false
                  | now exists true, false, true | now exists true, false, false
                  | now exists false, true, true | now exists false, true, false
                  | now exists false, false, true | now exists false, false, false ]
        end.
Qed.

(** ** GET /jobs, end to end *)

(** X9. In [GET /jobs] the query value [hasEquity=false] changes
    nothing: the handler does what it does for the same query without
    [hasEquity], whatever the other keys are. *)
Theorem getJobs_hasEquity_false_is_absent :
  forall (toNumber : value -> number) (filters : JsObject),
    get "hasEquity" filters = VStr "false" ->
    JobsRouter.getJobs toNumber filters
    = JobsRouter.getJobs toNumber (remove "hasEquity" filters).
Proof.
  intros toNumber filters H. unfold JobsRouter.getJobs, JobsRouter.invalidFilters.
  rewrite (not_included_remove JobsRouter.allowedFilters "hasEquity" filters)
    by (right; right; left).
  rewrite get_remove_eq, !get_remove_ne by discriminate. rewrite H.
  reflexivity.
Qed.

Lemma getJobs_hasEquity_false_is_absent_witness :
  get "hasEquity" [("hasEquity", VStr "false"); ("title", VStr "en")] = VStr "false"
  /\ JobsRouter.getJobs digitsToNumber [("hasEquity", VStr "false"); ("title", VStr "en")]
     = JobsRouter.getJobs digitsToNumber
         (remove "hasEquity" [("hasEquity", VStr "false"); ("title", VStr "en")]).
Proof.
  split; [reflexivity|].
  apply (getJobs_hasEquity_false_is_absent digitsToNumber
           [("hasEquity", VStr "false"); ("title", VStr "en")]).
  reflexivity.
Defined.

(** The handler throws before any statement, or goes on to
    [Job.findAll] with the sanitized record. *)
Lemma getJobs_throws_or_finds (toNumber : value -> number) (filters : JsObject) :
  (exists message : string,
      JobsRouter.getJobs toNumber filters = Throw (BadRequestError message))
  \/ JobsRouter.getJobs toNumber filters =
     andThen
       (Job.findAll
          (Some (JobsRouter.sanitize toNumber (get "title" filters)
                   (get "minSalary" filters) (get "hasEquity" filters))))
       (fun jobs => Ret jobs).
Proof.
  unfold JobsRouter.getJobs.
  destruct (0 <? length (JobsRouter.invalidFilters filters))%nat; [left; eauto|].
  destruct (negb (isUndefined (get "minSalary" filters)) && _); [left; eauto|].
  destruct (negb (isUndefined (get "hasEquity" filters)) && _); [left; eauto|].
  now right.
Qed.

(** X10. Whatever the query, the conversion of numbers and the store,
    [GET /jobs] sends at most one statement; it is the statement of
    [Job.findAll] for a record, its placeholders are 1, 2, ... up to
    the number of its parameters, and it has at most two parameters. *)
Theorem getJobs_sends_one_wellNumbered_statement :
  forall (toNumber : value -> number) (filters : JsObject)
         (DB : Type) (exec : string -> list value -> DB -> result QueryResult * DB)
         (s : DB),
    ((run exec (JobsRouter.getJobs toNumber filters) s).2 = []
     \/ exists o : JsObject,
          (run exec (JobsRouter.getJobs toNumber filters) s).2
          = [Job.findAllQuery (Some o)])
    /\ Forall wellNumbered (run exec (JobsRouter.getJobs toNumber filters) s).2
    /\ Forall (fun c : Call => length c.2 <= 2)
         (run exec (JobsRouter.getJobs toNumber filters) s).2.
Proof.
  intros toNumber filters DB exec s.
  destruct (getJobs_throws_or_finds toNumber filters) as [[message E]|E]; rewrite E.
  - cbn [run snd]. split; [now left|]. split; constructor.
  - rewrite run_andThen_Ret, run_findAll_log. split; [right; eauto|].
    split; (constructor; [|constructor]); [apply findAllQuery_wellNumbered|].
    unfold Job.findAllQuery. rewrite filterClauses_cases.
    destruct (truthy _), (decide (_ = VUndefined)); simpl; lia.
Qed.

(** ** GET /companies *)

Lemma gtNumber_true (a b : number) :
  gtNumber a b = true <-> exists x y : Z, a = Num x /\ b = Num y /\ (y < x)%Z.
Proof.
  destruct a as [|x], b as [|y]; simpl; split;
    try discriminate; try (intros (x' & y' & A & B & _); discriminate).
  - intros H. apply Z.ltb_lt in H. now exists x, y.
  - intros (x' & y' & A & B & L). injection A as <-. injection B as <-.
    now apply Z.ltb_lt.
Qed.

(** X11. [GET /companies] refuses a query with a key other than
    [nameLike], [minEmployees], [maxEmployees], and a query whose two
    bounds are numbers with the minimum above the maximum, with a
    BadRequestError, and [Company.findAll] is not called. *)
Theorem getCompanies_refusals :
  forall (toNumber : value -> number)
         (findAll : CompaniesRouter.FindAllFilters -> Prog (list JsObject))
         (filters : JsObject),
    ((exists key : string, key ∈ keys filters /\ key ∉ CompaniesRouter.allowedFilters) ->
     CompaniesRouter.getCompanies toNumber findAll filters =
     Throw (BadRequestError
              ("Invalid filters: " +:+ join ", " (CompaniesRouter.invalidFilters filters)
               +:+ ". Allowed filters are: nameLike, minEmployees, maxEmployees")))
    /\ (forall lo hi : Z,
          (forall key : string,
              key ∈ keys filters -> key ∈ CompaniesRouter.allowedFilters) ->
          get "minEmployees" filters <> VUndefined ->
          get "maxEmployees" filters <> VUndefined ->
          toNumber (get "minEmployees" filters) = Num lo ->
          toNumber (get "maxEmployees" filters) = Num hi ->
          (hi < lo)%Z ->
          CompaniesRouter.getCompanies toNumber findAll filters =
          Throw (BadRequestError "minEmployees cannot be greater than maxEmployees")).
Proof.
  intros toNumber findAll filters. split.
  - intros (key & I & N). unfold CompaniesRouter.getCompanies.
    assert (H : key ∈ CompaniesRouter.invalidFilters filters)
      by now apply not_included_elem.
    destruct (CompaniesRouter.invalidFilters filters) as [|k l];
      [inversion H | reflexivity].
  - intros lo hi A Ulo Uhi Nlo Nhi L. unfold CompaniesRouter.getCompanies.
    assert (E : CompaniesRouter.invalidFilters filters = [])
      by now apply not_included_nil.
    rewrite E. cbn [length Nat.ltb Nat.leb].
    rewrite (isUndefined_false _ Ulo), (isUndefined_false _ Uhi), Nlo, Nhi. cbn [negb andb gtNumber].
    now rewrite (proj2 (Z.ltb_lt hi lo) L).
Qed.

Lemma getCompanies_refusals_witness :
  ((forall key : string,
       key ∈ keys [("minEmployees", VStr "10"); ("maxEmployees", VStr "5")] ->
       key ∈ CompaniesRouter.allowedFilters)
   /\ get "minEmployees" [("minEmployees", VStr "10"); ("maxEmployees", VStr "5")]
      <> VUndefined
   /\ get "maxEmployees" [("minEmployees", VStr "10"); ("maxEmployees", VStr "5")]
      <> VUndefined
   /\ digitsToNumber
        (get "minEmployees" [("minEmployees", VStr "10"); ("maxEmployees", VStr "5")])
      = Num 10
   /\ digitsToNumber
        (get "maxEmployees" [("minEmployees", VStr "10"); ("maxEmployees", VStr "5")])
      = Num 5
   /\ (5 < 10)%Z)
  /\ CompaniesRouter.getCompanies digitsToNumber (fun _ => Ret [])
       [("minEmployees", VStr "10"); ("maxEmployees", VStr "5")]
     = Throw (BadRequestError "minEmployees cannot be greater than maxEmployees").
Proof.
  assert (A : forall key : string,
             key ∈ keys [("minEmployees", VStr "10"); ("maxEmployees", VStr "5")] ->
             key ∈ CompaniesRouter.allowedFilters).
  { intros key I. apply elem_of_cons in I as [->|I]; [right; left|].
    apply list_elem_of_singleton in I. subst key. right; right; left. }
  split; [repeat split; (exact A || discriminate || reflexivity)|].
  apply (proj2 (getCompanies_refusals digitsToNumber (fun _ => Ret [])
                  [("minEmployees", VStr "10"); ("maxEmployees", VStr "5")]) 10%Z 5%Z);
    (exact A || discriminate || reflexivity).
Defined.

(** The handler throws, or calls [Company.findAll] with the three
    fields read off the query. *)
Lemma getCompanies_throws_or_finds (toNumber : value -> number) (filters : JsObject) :
  (exists message : string,
      forall findAll : CompaniesRouter.FindAllFilters -> Prog (list JsObject),
        CompaniesRouter.getCompanies toNumber findAll filters
        = Throw (BadRequestError message))
  \/ ((negb (isUndefined (get "minEmployees" filters))
       && negb (isUndefined (get "maxEmployees" filters))
       && gtNumber (toNumber (get "minEmployees" filters))
            (toNumber (get "maxEmployees" filters)) = false)
      /\ forall findAll : CompaniesRouter.FindAllFilters -> Prog (list JsObject),
           CompaniesRouter.getCompanies toNumber findAll filters =
           andThen
             (findAll
                (CompaniesRouter.mkFindAllFilters
                   (get "nameLike" filters)
                   (if isUndefined (get "minEmployees" filters) then None
                    else Some (toNumber (get "minEmployees" filters)))
                   (if isUndefined (get "maxEmployees" filters) then None
                    else Some (toNumber (get "maxEmployees" filters)))))
             (fun companies => Ret companies)).
Proof.
  unfold CompaniesRouter.getCompanies.
  destruct (0 <? length (CompaniesRouter.invalidFilters filters))%nat; [left; eauto|].
  destruct (negb (isUndefined (get "minEmployees" filters)) && _ && _);
    [left; eauto | right; split; [reflexivity | intros; reflexivity]].
Qed.

(** X12. Whenever [GET /companies] calls [Company.findAll], the name
    it passes is the query's [nameLike] as it is, a bound is passed
    exactly when the query has it, and if both bounds passed are
    numbers then the minimum is not above the maximum. *)
Theorem getCompanies_passes_ordered_bounds :
  forall (toNumber : value -> number) (filters : JsObject),
    (exists message : string,
        forall findAll : CompaniesRouter.FindAllFilters -> Prog (list JsObject),
          CompaniesRouter.getCompanies toNumber findAll filters
          = Throw (BadRequestError message))
    \/ exists f : CompaniesRouter.FindAllFilters,
         (forall findAll : CompaniesRouter.FindAllFilters -> Prog (list JsObject),
             CompaniesRouter.getCompanies toNumber findAll filters
             = andThen (findAll f) (fun companies => Ret companies))
         /\ CompaniesRouter.name f = get "nameLike" filters
         /\ (CompaniesRouter.minEmployees f = None
             <-> get "minEmployees" filters = VUndefined)
         /\ (CompaniesRouter.maxEmployees f = None
             <-> get "maxEmployees" filters = VUndefined)
         /\ forall lo hi : Z,
              CompaniesRouter.minEmployees f = Some (Num lo) ->
              CompaniesRouter.maxEmployees f = Some (Num hi) ->
              (lo <= hi)%Z.
Proof.
  intros toNumber filters.
  destruct (getCompanies_throws_or_finds toNumber filters) as [T|[C E]]; [now left|].
  right. eexists. split; [exact E|]. cbn [CompaniesRouter.name
    CompaniesRouter.minEmployees CompaniesRouter.maxEmployees].
  split; [reflexivity|].
  pose proof (isUndefined_true (get "minEmployees" filters)) as U1.
  pose proof (isUndefined_true (get "maxEmployees" filters)) as U2.
  destruct (isUndefined (get "minEmployees" filters)),
           (isUndefined (get "maxEmployees" filters));
    (split; [|split]);
    try (split; [intros _; now apply U1 | reflexivity]);
    try (split; [intros _; now apply U2 | reflexivity]);
    try (split; [discriminate | intros H; apply U1 in H; discriminate H]);
    try (split; [discriminate | intros H; apply U2 in H; discriminate H]);
    intros lo hi Hlo Hhi; try discriminate.
  injection Hlo as Hlo. injection Hhi as Hhi. rewrite Hlo, Hhi in C.
  cbn [negb andb gtNumber] in C. apply Z.ltb_ge in C. exact C.
Qed.

(** X13. [GET /companies] does not check that a bound is a number: a
    query with allowed keys and one bound only, or with a bound that
    converts to NaN, is never refused, and [Company.findAll] gets the
    converted bounds, NaN included. *)
Theorem getCompanies_passes_NaN_bounds :
  forall (toNumber : value -> number)
         (findAll : CompaniesRouter.FindAllFilters -> Prog (list JsObject))
         (filters : JsObject),
    (forall key : string, key ∈ keys filters -> key ∈ CompaniesRouter.allowedFilters) ->
    get "minEmployees" filters = VUndefined
    \/ get "maxEmployees" filters = VUndefined
    \/ toNumber (get "minEmployees" filters) = NaN
    \/ toNumber (get "maxEmployees" filters) = NaN ->
    CompaniesRouter.getCompanies toNumber findAll filters =
    andThen
      (findAll
         (CompaniesRouter.mkFindAllFilters
            (get "nameLike" filters)
            (if isUndefined (get "minEmployees" filters) then None
             else Some (toNumber (get "minEmployees" filters)))
            (if isUndefined (get "maxEmployees" filters) then None
             else Some (toNumber (get "maxEmployees" filters)))))
      (fun companies => Ret companies).
Proof.
  intros toNumber findAll filters A H. unfold CompaniesRouter.getCompanies.
  assert (E : CompaniesRouter.invalidFilters filters = [])
    by now apply not_included_nil.
  rewrite E. cbn [length Nat.ltb Nat.leb].
  assert (C : negb (isUndefined (get "minEmployees" filters))
              && negb (isUndefined (get "maxEmployees" filters))
              && gtNumber (toNumber (get "minEmployees" filters))
                   (toNumber (get "maxEmployees" filters)) = false).
  { destruct H as [H|[H|[H|H]]]; rewrite H.
    - reflexivity.
    - now rewrite andb_false_r.
    - now rewrite andb_false_r.
    - destruct (toNumber (get "minEmployees" filters)); now rewrite andb_false_r. }
  now rewrite C.
Qed.

Lemma getCompanies_passes_NaN_bounds_witness :
  ((forall key : string,
       key ∈ keys [("minEmployees", VStr "many")] ->
       key ∈ CompaniesRouter.allowedFilters)
   /\ (get "minEmployees" [("minEmployees", VStr "many")] = VUndefined
       \/ get "maxEmployees" [("minEmployees", VStr "many")] = VUndefined
       \/ digitsToNumber (get "minEmployees" [("minEmployees", VStr "many")]) = NaN
       \/ digitsToNumber (get "maxEmployees" [("minEmployees", VStr "many")]) = NaN))
  /\ CompaniesRouter.getCompanies digitsToNumber (fun _ => Ret [])
       [("minEmployees", VStr "many")]
     = andThen
         ((fun _ => Ret []) (CompaniesRouter.mkFindAllFilters VUndefined (Some NaN) None))
         (fun companies => Ret companies).
Proof.
  assert (A : forall key : string,
             key ∈ keys [("minEmployees", VStr "many")] ->
             key ∈ CompaniesRouter.allowedFilters).
  { intros key I. apply list_elem_of_singleton in I. subst key. right; left. }
  split; [split; [exact A | right; left; reflexivity]|].
  apply (getCompanies_passes_NaN_bounds digitsToNumber (fun _ => Ret [])
           [("minEmployees", VStr "many")] A).
  right. left. reflexivity.
Defined.

Lemma getCompanies_passes_ordered_bounds_witness :
  exists f : CompaniesRouter.FindAllFilters,
    CompaniesRouter.getCompanies digitsToNumber (fun _ => Ret [])
      [("nameLike", VStr "net"); ("minEmployees", VStr "2"); ("maxEmployees", VStr "5")]
    = andThen ((fun _ => Ret []) f) (fun companies => Ret companies)
    /\ CompaniesRouter.name f = VStr "net"
    /\ (CompaniesRouter.minEmployees f = Some (Num 2) ->
        CompaniesRouter.maxEmployees f = Some (Num 5) -> (2 <= 5)%Z).
Proof.
  destruct (getCompanies_passes_ordered_bounds digitsToNumber
              [("nameLike", VStr "net"); ("minEmployees", VStr "2");
               ("maxEmployees", VStr "5")])
    as [[message T]|(f & E & N & _ & _ & B)].
  - specialize (T (fun _ => Ret [])). discriminate T.
  - exists f. split; [apply E|]. split; [exact N|]. apply B.
Defined.

(** ** The order of the query parameters *)

(** X14. For a query whose keys are all allowed and all different, the
    order of the parameters in the URL plays no part: [GET /jobs] and
    [GET /companies] do the same for the query with its entries in any
    other order. *)
Theorem routes_ignore_parameter_order :
  forall (toNumber : value -> number) (filters filters' : JsObject),
    NoDup (keys filters) ->
    filters ≡ₚ filters' ->
    ((forall key : string, key ∈ keys filters -> key ∈ JobsRouter.allowedFilters) ->
     JobsRouter.getJobs toNumber filters = JobsRouter.getJobs toNumber filters')
    /\ ((forall key : string,
            key ∈ keys filters -> key ∈ CompaniesRouter.allowedFilters) ->
        forall findAll : CompaniesRouter.FindAllFilters -> Prog (list JsObject),
          CompaniesRouter.getCompanies toNumber findAll filters
          = CompaniesRouter.getCompanies toNumber findAll filters').
Proof.
  intros toNumber filters filters' ND P.
  assert (K : forall allowed : list string,
             (forall key : string, key ∈ keys filters -> key ∈ allowed) ->
             forall key : string, key ∈ keys filters' -> key ∈ allowed).
  { intros allowed A key I. apply A. unfold keys in *. now rewrite P. }
  split.
  - intros A. unfold JobsRouter.getJobs.
    rewrite (proj2 (not_included_nil JobsRouter.allowedFilters (keys filters)) A
             : JobsRouter.invalidFilters filters = []).
    rewrite (proj2 (not_included_nil JobsRouter.allowedFilters (keys filters'))
               (K _ A) : JobsRouter.invalidFilters filters' = []).
    now rewrite <- !(get_perm _ filters filters' ND P).
  - intros A findAll. unfold CompaniesRouter.getCompanies.
    rewrite (proj2 (not_included_nil CompaniesRouter.allowedFilters (keys filters)) A
             : CompaniesRouter.invalidFilters filters = []).
    rewrite (proj2 (not_included_nil CompaniesRouter.allowedFilters (keys filters'))
               (K _ A) : CompaniesRouter.invalidFilters filters' = []).
    now rewrite <- !(get_perm _ filters filters' ND P).
Qed.

Lemma routes_ignore_parameter_order_witness :
  (NoDup (keys [("title", VStr "en"); ("minSalary", VStr "2")])
   /\ [("title", VStr "en"); ("minSalary", VStr "2")]
      ≡ₚ [("minSalary", VStr "2"); ("title", VStr "en")]
   /\ forall key : string,
        key ∈ keys [("title", VStr "en"); ("minSalary", VStr "2")] ->
        key ∈ JobsRouter.allowedFilters)
  /\ JobsRouter.getJobs digitsToNumber [("title", VStr "en"); ("minSalary", VStr "2")]
     = JobsRouter.getJobs digitsToNumber [("minSalary", VStr "2"); ("title", VStr "en")].
Proof.
  assert (ND : NoDup (keys [("title", VStr "en"); ("minSalary", VStr "2")])).
  { unfold keys. simpl. apply NoDup_cons. split; [|apply NoDup_singleton].
    intros H. apply list_elem_of_singleton in H. discriminate H. }
  assert (P : [("title", VStr "en"); ("minSalary", VStr "2")]
              ≡ₚ [("minSalary", VStr "2"); ("title", VStr "en")]).
  { apply perm_swap. }
  assert (A : forall key : string,
             key ∈ keys [("title", VStr "en"); ("minSalary", VStr "2")] ->
             key ∈ JobsRouter.allowedFilters).
  { intros key I. apply elem_of_cons in I as [->|I]; [left|].
    apply list_elem_of_singleton in I. subst key. right; left. }
  split; [split; [exact ND | split; [exact P | exact A]]|].
  exact (proj1 (routes_ignore_parameter_order digitsToNumber _ _ ND P) A).
Defined.
